(** * Arithmetic sequence generator (app.py): model and verification

    The repository is one Streamlit script.  [generate_arithmetic_sequence]
    builds the list of terms with a [for] loop over [range(num_terms)];
    [main] reads three number widgets, validates the number of terms,
    calls the generator and renders the result.

    The model follows the script.  Python's built-ins that the script uses
    ([range], indexing, slicing, [sum], [str.join], [enumerate], number
    formatting) are defined once in [Module Py].  The generator is given
    as the loop it is, a step relation on the loop state, as an
    executable function that gives the list it returns, and in
    [Module Interp] as a call that runs in the interpreter's store of
    list objects and can raise.  [main] returns the Streamlit elements it
    emits, in call order, together with the calls it makes to the
    generator. *)

From Stdlib Require Import ZArith Floats QArith Qround.
From Stdlib Require Ascii String DecimalString DecimalPos DecimalZ.
From stdpp Require Import base list list_numbers relations sorting strings.

Local Open Scope Z_scope.

(** ** Python numbers

    The generator is duck-typed: it needs [x + y] and [i * x] with [i] an
    [int], nothing else.  [py_of_int] is the promotion of an [int] operand
    to the type of the other operand. *)

Class PyArith (T : Type) := {
  py_of_int : Z → T;
  py_add : T → T → T;
  py_mul : T → T → T
}.

(** What the presentation needs on top: the two ways the script turns a
    number into text, [f"{x:g}"] and [f"{x}"]. *)

Class PyFormat (T : Type) := {
  format_g : T → string;
  format_str : T → string
}.

(** ** Built-ins *)

Module Py.

(** [len(l)] *)
Definition len {A} (l : list A) : Z := Z.of_nat (length l).

(** [range(stop)]: empty when [stop <= 0]. *)
Definition range (stop : Z) : list Z := seqZ 0 stop.

(** [range(start, stop, step)] for a positive [step], the only use the
    script makes of it: [start, start + step, ...] below [stop]. *)
Definition range_step (start stop step : Z) : list Z :=
  (λ k, start + k * step) <$> seqZ 0 ((stop - start + step - 1) `div` step).

(** [l[i]]: a negative index counts from the end; [None] stands for
    [IndexError]. *)
Definition index {A} (l : list A) (i : Z) : option A :=
  let j := if i <? 0 then i + len l else i in
  if (0 <=? j) && (j <? len l) then l !! Z.to_nat j else None.

(** A slice bound is clamped into [0 .. len(l)]. *)
Definition clamp (n i : Z) : Z :=
  if i <? 0 then Z.max (i + n) 0 else Z.min i n.

(** [l[start:stop]]; [None] is an omitted bound. *)
Definition slice {A} (l : list A) (start stop : option Z) : list A :=
  let lo := from_option (clamp (len l)) 0 start in
  let hi := from_option (clamp (len l)) (len l) stop in
  take (Z.to_nat (hi - lo)) (drop (Z.to_nat lo) l).

(** [sum(l)]: the items are added from left to right, starting from
    the [int] 0.  (Later versions of CPython compensate the rounding
    errors of a sum of floats; a sum that is exact, as those of the
    examples are, is the same either way.) *)
Definition sum {T} `{PyArith T} (l : list T) : T :=
  fold_left py_add l (py_of_int 0).

(** [sep.join(l)] *)
Definition join (sep : string) (l : list string) : string :=
  String.concat sep l.

(** [enumerate(l)] *)
Definition enumerate {A} (l : list A) : list (Z * A) :=
  zip (range (len l)) l.

(** [str(i)] for an [int]. *)
Definition str_int (i : Z) : string :=
  DecimalString.NilZero.string_of_int (Z.to_int i).

(** *** Formatting a float

    A finite float is [m * 2^e]; its decimal digits are computed on the
    exact rational value. *)

Definition digits (d : Z) : string :=
  DecimalString.NilZero.string_of_uint (N.to_uint (Z.to_N d)).

Definition nb_digits (d : Z) : Z := Z.of_nat (String.length (digits d)).

Definition zeros (n : Z) : string :=
  String.concat EmptyString (replicate (Z.to_nat n) "0").

Definition exact (m : positive) (e : Z) : Q :=
  (inject_Z (Zpos m) * Qpower 2 e)%Q.

Definition pow10 (p : Z) : Q := Qpower 10 p.

(** [floor(log10 x)] for a positive [x]. *)
Definition exponent10 (x : Q) : Z :=
  let g := nb_digits (Qnum x) - nb_digits (Zpos (Qden x)) in
  if Qle_bool (pow10 g) x then g else g - 1.

(** Remove the trailing zeros of the decimal [d * 10^p]. *)
Fixpoint strip_zeros (fuel : nat) (d p : Z) : Z * Z :=
  match fuel with
  | O => (d, p)
  | S fuel =>
      if (0 <? d) && (d mod 10 =? 0)
      then strip_zeros fuel (d / 10) (p + 1)
      else (d, p)
  end.

(** The digit string of [d * 10^p] and the position [decpt] of its
    decimal point: the value is [0.d1d2... * 10^decpt]. *)
Definition decimal (d p : Z) : string * Z :=
  let '(d, p) := strip_zeros 20 d p in (digits d, nb_digits d + p).

(** Rounding to the nearest integer, a tie to the even one. *)
Definition round_half_even (x : Q) : Z :=
  let f := Qfloor x in
  match (x - inject_Z f ?= 1 # 2)%Q with
  | Lt => f
  | Gt => f + 1
  | Eq => if Z.even f then f else f + 1
  end.

(** [x] rounded to [ndigits] significant digits. *)
Definition round_digits (ndigits : Z) (x : Q) : string * Z :=
  let p := exponent10 x + 1 - ndigits in
  decimal (round_half_even (x / pow10 p)%Q) p.

(** Does the decimal [q] read back as the float [m * 2^e]?  The float's
    rounding interval reaches half way to each neighbour, and holds its
    end points when [m] is even. *)
Definition reads_back (m : positive) (e : Z) (q : Q) : bool :=
  let x := exact m e in
  let up := (Qpower 2 e / 2)%Q in
  let down := if (Zpos m =? 2 ^ 52) && (-1074 <? e) then (up / 2)%Q else up in
  if Z.even (Zpos m)
  then Qle_bool (x - down) q && Qle_bool q (x + up)
  else negb (Qle_bool q (x - down)) && negb (Qle_bool (x + up) q).

(** The shortest digit string that reads back as the float, and the
    closest to it when several do; 17 digits always suffice. *)
Fixpoint shortest_digits (fuel : nat) (ndigits : Z) (m : positive) (e : Z)
    : string * Z :=
  let x := exact m e in
  let p := exponent10 x + 1 - ndigits in
  let lo := Qfloor (x / pow10 p)%Q in
  let near := round_half_even (x / pow10 p)%Q in
  let far := if near =? lo then lo + 1 else lo in
  if reads_back m e (inject_Z near * pow10 p)%Q then decimal near p
  else if reads_back m e (inject_Z far * pow10 p)%Q then decimal far p
  else match fuel with
       | O => decimal near p
       | S fuel => shortest_digits fuel (ndigits + 1) m e
       end.

(** Exponent notation, [d.ddde+XX]. *)
Definition scientific (ds : string) (decpt : Z) : string :=
  let x := decpt - 1 in
  let mantissa :=
    match ds with
    | String d EmptyString => String d EmptyString
    | String d rest => String d ("." +:+ rest)
    | EmptyString => EmptyString
    end in
  mantissa +:+ "e" +:+ (if x <? 0 then "-" else "+")
    +:+ (if Z.abs x <? 10 then "0" else EmptyString) +:+ digits (Z.abs x).

(** Positional notation; [tail] follows an integral value. *)
Definition fixed (ds : string) (decpt : Z) (tail : string) : string :=
  let n := Z.of_nat (String.length ds) in
  if decpt <=? 0 then "0." +:+ zeros (- decpt) +:+ ds
  else if n <=? decpt then ds +:+ zeros (decpt - n) +:+ tail
  else String.substring 0 (Z.to_nat decpt) ds +:+ "." +:+
       String.substring (Z.to_nat decpt) (Z.to_nat (n - decpt)) ds.

Definition sign_str (s : bool) : string := if s then "-" else EmptyString.

(** [format(x, 'g')]: six significant digits, trailing zeros removed,
    exponent notation below [1e-4] and from [1e6] on. *)
Definition float_g (x : float) : string :=
  match Prim2SF x with
  | S754_nan => "nan"
  | S754_infinity s => sign_str s +:+ "inf"
  | S754_zero s => sign_str s +:+ "0"
  | S754_finite s m e =>
      let '(ds, decpt) := round_digits 6 (exact m e) in
      sign_str s +:+
      (if (decpt <=? -4) || (6 <? decpt)
       then scientific ds decpt else fixed ds decpt EmptyString)
  end.

(** [str(x)]: the shortest digits that read back as [x], exponent
    notation below [1e-4] and from [1e16] on. *)
Definition float_str (x : float) : string :=
  match Prim2SF x with
  | S754_nan => "nan"
  | S754_infinity s => sign_str s +:+ "inf"
  | S754_zero s => sign_str s +:+ "0.0"
  | S754_finite s m e =>
      let '(ds, decpt) := shortest_digits 17 1 m e in
      sign_str s +:+
      (if (decpt <=? -4) || (16 <? decpt)
       then scientific ds decpt else fixed ds decpt ".0")
  end.

(** The float of an [int] operand, when it has one: the nearest float, a
    tie to the even one.  Python raises [OverflowError] for an [int] that
    rounds beyond the largest float; [float_int_fits] below says which
    ones do not, and [Interp.promote] raises for the others.  On an
    [int] that does not fit this function gives infinity. *)
Definition float_of_int (i : Z) : float :=
  SF2Prim (binary_normalize prec emax i 0 false).

(** [x == y] on floats. *)
Definition float_eq (x y : float) : bool := PrimFloat.eqb x y.

(** The first [int] that has no float: half way between the largest
    float, [2^1024 - 2^971], and [2^1024]. *)
Definition float_int_limit : Z := 2 ^ 1024 - 2 ^ 970.

(** Does [i] convert to a float?  ("int too large to convert to float"
    otherwise.) *)
Definition float_int_fits (i : Z) : bool := Z.abs i <? float_int_limit.

End Py.

(** Python [int]: unbounded and exact. *)
#[export] Instance int_arith : PyArith Z :=
  {| py_of_int := id; py_add := Z.add; py_mul := Z.mul |}.

(** Python [float]: IEEE 754 binary64, which is what the number widgets of
    [main] return for the first term and the common difference. *)
#[export] Instance float_arith : PyArith float :=
  {| py_of_int := Py.float_of_int;
     py_add := PrimFloat.add;
     py_mul := PrimFloat.mul |}.

#[export] Instance float_format : PyFormat float :=
  {| format_g := Py.float_g; format_str := Py.float_str |}.

(** Whether the promotion of the [int] [i] to the number type succeeds;
    when it does, its value is [py_of_int i]. *)
Class PyPromote (T : Type) := { py_int_fits : Z → bool }.

(** No [int] is promoted in [int * int]. *)
#[export] Instance int_promote : PyPromote Z := {| py_int_fits := λ _, true |}.


(** ** The generator (app.py, lines 3-19) *)

Section Generator.
Context {T : Type} `{PyArith T}.

(** line 17: [term = first_term + (i * common_difference)] *)
Definition term (first_term common_difference : T) (i : Z) : T :=
  py_add first_term (py_mul (py_of_int i) common_difference).

(** The loop state: the values the range iterator has still to yield and
    the list [sequence] built so far. *)
Record loop_state := LoopState { pending : list Z; sequence : list T }.

(** One iteration of lines 16-18: take the next [i], append its term. *)
Inductive loop_step (first_term common_difference : T) :
  loop_state → loop_state → Prop :=
| loop_iter i rest seq :
    loop_step first_term common_difference
      (LoopState (i :: rest) seq)
      (LoopState rest (seq ++ [term first_term common_difference i])).

(** A call returns [result] when the loop, started at line 15 with the
    empty list, has run until the iterator is exhausted (line 19). *)
Definition returns (first_term common_difference : T) (num_terms : Z)
    (result : list T) : Prop :=
  rtc (loop_step first_term common_difference)
      (LoopState (Py.range num_terms) [])
      (LoopState [] result).

(** The same loop as a function. *)
Definition generate_arithmetic_sequence
    (first_term common_difference : T) (num_terms : Z) : list T :=
  fold_left (λ seq i, seq ++ [term first_term common_difference i])
            (Py.range num_terms) [].

End Generator.

(** ** A call of the generator in the interpreter (app.py, lines 15-19)

    The interpreter's state is its store of list objects, a list being
    known by its place in the store.  A statement either returns or
    raises, and what it did to the store stays done in both cases.
    Line 15 makes a new list object, line 18 appends to the object that
    the variable [sequence] refers to, line 19 returns that reference. *)

Inductive exn := OverflowError.

Inductive outcome (A : Type) :=
| Returned (a : A)
| Raised (e : exn).
Arguments Returned {A} a.
Arguments Raised {A} e.

Module Interp.
Section Calls.
Context {T : Type} `{PyArith T} `{PyPromote T}.

Definition interp (A : Type) : Type :=
  list (list T) → outcome A * list (list T).

Definition ret {A} (a : A) : interp A := λ h, (Returned a, h).

Definition raise {A} (e : exn) : interp A := λ h, (Raised e, h).

Definition bind {A B} (m : interp A) (k : A → interp B) : interp B :=
  λ h, match m h with
       | (Returned a, h') => k a h'
       | (Raised e, h') => (Raised e, h')
       end.

(** [[]]: a new list object, at the end of the store. *)
Definition new_list : interp nat :=
  λ h, (Returned (length h), h ++ [[]]).

(** [r.append(x)] *)
Definition list_append (r : nat) (x : T) : interp unit :=
  λ h, (Returned (), alter (λ l, l ++ [x]) r h).

(** The [int] operand of [i * x], promoted to the type of [x]. *)
Definition promote (i : Z) : interp T :=
  if py_int_fits i then ret (py_of_int i) else raise OverflowError.

(** [for x in xs: body] *)
Fixpoint for_each {A} (xs : list A) (body : A → interp unit) : interp unit :=
  match xs with
  | [] => ret ()
  | x :: xs => bind (body x) (λ _, for_each xs body)
  end.

(** lines 17-18 *)
Definition loop_body (first_term common_difference : T) (sequence : nat)
    (i : Z) : interp unit :=
  bind (promote i) (λ x,
    list_append sequence (py_add first_term (py_mul x common_difference))).

(** lines 15-19 *)
Definition generate_arithmetic_sequence
    (first_term common_difference : T) (num_terms : Z) : interp nat :=
  bind new_list (λ sequence,
  bind (for_each (Py.range num_terms)
          (loop_body first_term common_difference sequence)) (λ _,
  ret sequence)).

(** What the caller has after a run: the list that the returned
    reference stands for, or the exception. *)
Definition result_of (run : outcome nat * list (list T)) : outcome (list T) :=
  match run.1 with
  | Returned r => Returned (default [] (run.2 !! r))
  | Raised e => Raised e
  end.

(** A call made when the store is [h]. *)
Definition returned (first_term common_difference : T) (num_terms : Z)
    (h : list (list T)) : outcome (list T) :=
  result_of (generate_arithmetic_sequence first_term common_difference num_terms h).

End Calls.
End Interp.

(** ** The page (app.py, lines 21-155)

    What a run of the script shows: the Streamlit calls in the order they
    are made.  Column containers only place elements, so the content of
    the columns is listed in order; the expander keeps its content. *)

#[warnings="-register-all"]
Inductive element :=
| st_set_page_config (page_title page_icon layout : string)
| st_title (body : string)
| st_markdown (body : string)
| st_header (body : string)
| st_subheader (body : string)
| st_number_input (label : string)
| st_error (body : string)
| st_latex (body : string)
| st_metric (label value : string)
| st_code (body : string)
| st_write (body : string)
| st_text (body : string)
| st_expander (label : string) (content : list element)
| st_download_button (label data file_name mime : string).

(** A run: the page, and the calls made to [generate_arithmetic_sequence]. *)
Record run (T : Type) := Run {
  page : list element;
  generator_calls : list (T * T * Z)
}.
Arguments Run {T} _ _.
Arguments page {T} _.
Arguments generator_calls {T} _.

Definition newline : string := "
".

(** lines 23-63: configuration, title and the three inputs, whose values
    are the arguments of [main]. *)
Definition input_section : list element :=
  [ st_set_page_config "Arithmetic Sequence Generator" "🔢" "centered";
    st_title "🔢 Arithmetic Sequence Generator";
    st_markdown "Generate arithmetic sequences by specifying the first term, common difference, and number of terms.";
    st_header "Input Parameters";
    st_number_input "First Term";
    st_number_input "Common Difference";
    st_number_input "Number of Terms" ].

(** lines 142-155 *)
Definition about_section : list element :=
  [ st_markdown "---";
    st_markdown "
    ### About Arithmetic Sequences
    An arithmetic sequence is a sequence of numbers where the difference between consecutive terms is constant. 
    This difference is called the **common difference**.
    
    **General formula:** aₙ = a₁ + (n-1) × d
    
    Where:
    - aₙ is the nth term
    - a₁ is the first term
    - d is the common difference
    - n is the term number
    " ].

Section Presentation.
Context {T : Type} `{PyArith T} `{PyFormat T}.

(** [", ".join([f"{term:g}" for term in terms])] *)
Definition terms_str (terms : list T) : string :=
  Py.join ", " (format_g <$> terms).

Definition chunk_size : Z := 20.

(** lines 112-113: the chunks, each with the index [i] it starts at. *)
Definition chunks (sequence : list T) : list (Z * list T) :=
  (λ i, (i, Py.slice sequence (Some i) (Some (i + chunk_size))))
    <$> Py.range_step 0 (Py.len sequence) chunk_size.

(** lines 114-115:
    [f"Terms {i+1}-{min(i+chunk_size, len(sequence))}: {chunk_str}"] *)
Definition chunk_line (sequence : list T) (c : Z * list T) : element :=
  st_text ("Terms " +:+ Py.str_int (c.1 + 1) +:+ "-"
           +:+ Py.str_int (Z.min (c.1 + chunk_size) (Py.len sequence))
           +:+ ": " +:+ terms_str c.2).

(** lines 98-115 *)
Definition show_sequence (sequence : list T) : list element :=
  if Py.len sequence <=? 50 then
    [ st_code (terms_str sequence) ]
  else
    [ st_write ("**First 10 terms:** "
                +:+ terms_str (Py.slice sequence None (Some 10))) ]
    ++ (if 20 <? Py.len sequence
        then [ st_write ("**Last 10 terms:** "
                         +:+ terms_str (Py.slice sequence (Some (-10)) None)) ]
        else [])
    ++ [ st_expander "Show complete sequence"
           (chunk_line sequence <$> chunks sequence) ].

(** lines 123-126: the term shown as last; [None] is the [IndexError]
    of [sequence[0]] on an empty list. *)
Definition last_term (sequence : list T) : option T :=
  if 1 <? Py.len sequence then Py.index sequence (-1) else Py.index sequence 0.

(** line 130 *)
Definition sequence_text (sequence : list T) : string :=
  Py.join newline
    ((λ it, "Term " +:+ Py.str_int (it.1 + 1) +:+ ": " +:+ format_g it.2)
       <$> Py.enumerate sequence).

(** line 134 *)
Definition file_name (first_term common_difference : T) (num_terms : Z)
    : string :=
  "arithmetic_sequence_" +:+ format_str first_term +:+ "_"
    +:+ format_str common_difference +:+ "_" +:+ Py.str_int num_terms
    +:+ ".txt".

(** lines 129-136 *)
Definition download_option (first_term common_difference : T)
    (num_terms : Z) (sequence : list T) : list element :=
  if 10 <? Py.len sequence then
    [ st_download_button "📥 Download sequence as text file"
        (sequence_text sequence)
        (file_name first_term common_difference num_terms)
        "text/plain" ]
  else [].

(** lines 78-139, after the call of line 76.  The one statement of the
    block that can raise is [sequence[0]]; what was shown before it
    stays on the page and the handler of line 138 adds its message. *)
Definition results (first_term common_difference : T) (num_terms : Z)
    (sequence : list T) : list element :=
  [ st_header "Generated Sequence";
    st_subheader "Formula";
    st_latex ("a_n = " +:+ format_str first_term +:+ " + (n-1) \times "
              +:+ format_str common_difference);
    st_metric "First Term" (format_str first_term);
    st_metric "Common Difference" (format_str common_difference);
    st_metric "Number of Terms" (Py.str_int num_terms);
    st_subheader "Sequence" ]
  ++ show_sequence sequence
  ++ [ st_subheader "Sequence Properties";
       st_metric "Sum of all terms" (format_g (Py.sum sequence)) ]
  ++ match last_term sequence with
     | Some t =>
         st_metric "Last term" (format_g t)
         :: download_option first_term common_difference num_terms sequence
     | None =>
         [ st_error ("An error occurred while generating the sequence: "
                     +:+ "list index out of range") ]
     end.

(** lines 21-155 *)
Definition main (first_term common_difference : T) (num_terms : Z) : run T :=
  if num_terms <=? 0 then
    Run (input_section
         ++ [ st_error "Number of terms must be a positive integer." ]) []
  else if 1000 <? num_terms then
    Run (input_section
         ++ [ st_error "Number of terms cannot exceed 1000 for performance reasons." ]) []
  else
    let sequence :=
      generate_arithmetic_sequence first_term common_difference num_terms in
    Run (input_section
         ++ results first_term common_difference num_terms sequence
         ++ about_section)
        [ (first_term, common_difference, num_terms) ].

End Presentation.

(** ** Reading a page *)

Definition errors (p : list element) : list string :=
  omap (λ e, match e with st_error body => Some body | _ => None end) p.

Definition metrics (p : list element) : list (string * string) :=
  omap (λ e, match e with st_metric l v => Some (l, v) | _ => None end) p.

Definition inline_lines (p : list element) : list string :=
  omap (λ e, match e with st_code body => Some body | _ => None end) p.

Definition written_lines (p : list element) : list string :=
  omap (λ e, match e with st_write body => Some body | _ => None end) p.

(** The lines of text inside the expanders of the page. *)
Definition chunk_lines (p : list element) : list string :=
  mjoin (omap (λ e, match e with
                    | st_expander _ content =>
                        Some (omap (λ c, match c with
                                         | st_text body => Some body
                                         | _ => None
                                         end) content)
                    | _ => None
                    end) p).

(** The download buttons of the page: file name and data. *)
Definition downloads (p : list element) : list (string * string) :=
  omap (λ e, match e with
             | st_download_button _ data name _ => Some (name, data)
             | _ => None
             end) p.

(** * Verification *)

(** ** Built-ins *)

Example index_slice_range :
  Py.index [1; 2; 3; 4; 5] (-1) = Some 5
  ∧ Py.index [1; 2; 3; 4; 5] 5 = None
  ∧ Py.index [1; 2; 3; 4; 5] (-6) = None
  ∧ Py.slice [1; 2; 3; 4; 5] None (Some 10) = [1; 2; 3; 4; 5]
  ∧ Py.slice [1; 2; 3; 4; 5] (Some (-2)) None = [4; 5]
  ∧ Py.slice [1; 2; 3; 4; 5] (Some (-10)) None = [1; 2; 3; 4; 5]
  ∧ Py.slice [1; 2; 3; 4; 5] (Some 3) (Some 23) = [4; 5]
  ∧ Py.range (-3) = []
  ∧ Py.range_step 0 40 20 = [0; 20]
  ∧ Py.range_step 0 41 20 = [0; 20; 40]
  ∧ Py.enumerate [7; 8] = [(0, 7); (1, 8)]
  ∧ Py.str_int (-12) = "-12".
Proof. repeat split; reflexivity. Qed.

(** The two float formats on values that show their rules: the switch
    to exponent notation, the rounding to six digits, the shortest
    digits that read back. *)
Example float_texts :
  (Py.float_g <$> [0.5; 100000; 999999.5; 1000000; 1234567; 0x1p-13; 0x1p-20;
                   0x1.999999999999ap-4; 0x1.3333333333334p-2; -0; -2.5]%float)
  = [ "0.5"; "100000"; "1e+06"; "1e+06"; "1.23457e+06"; "0.00012207";
      "9.53674e-07"; "0.1"; "0.3"; "-0"; "-2.5" ]
  ∧ (Py.float_str <$> [0.5; 100000; 999999.5; 1e15; 1e16; 0x1p-13; 0x1p-20;
                       0x1.999999999999ap-4; 0x1.3333333333334p-2; -0; -2.5]%float)
    = [ "0.5"; "100000.0"; "999999.5"; "1000000000000000.0"; "1e+16";
        "0.0001220703125"; "9.5367431640625e-07"; "0.1";
        "0.30000000000000004"; "-0.0"; "-2.5" ].
Proof. split; vm_compute; reflexivity. Qed.

Section BuiltinFacts.
Context {A : Type}.
Implicit Types (l : list A) (i n : Z).

Lemma len_nonneg l : 0 ≤ Py.len l.
Proof. unfold Py.len. lia. Qed.

Lemma index_lookup l i :
  0 ≤ i < Py.len l → Py.index l i = l !! Z.to_nat i.
Proof.
  intros Hi. unfold Py.index.
  destruct (Z.ltb_spec i 0); [lia|].
  destruct (Z.leb_spec 0 i), (Z.ltb_spec i (Py.len l)); simpl; done || lia.
Qed.

Lemma index_from_end l i :
  - Py.len l ≤ i < 0 → Py.index l i = l !! Z.to_nat (Py.len l + i).
Proof.
  intros Hi. unfold Py.index.
  destruct (Z.ltb_spec i 0); [|lia].
  destruct (Z.leb_spec 0 (i + Py.len l)), (Z.ltb_spec (i + Py.len l) (Py.len l));
    simpl; try lia.
  by rewrite (Z.add_comm i).
Qed.

Lemma slice_prefix l n :
  0 ≤ n → Py.slice l None (Some n) = take (Z.to_nat n) l.
Proof.
  intros Hn. unfold Py.slice, Py.clamp; simpl.
  destruct (Z.ltb_spec n 0); [lia|].
  rewrite Z.sub_0_r. unfold Py.len. change (drop (Z.to_nat 0) l) with l.
  destruct (Z.min_spec n (Z.of_nat (length l))) as [[? ->]|[? ->]]; [done|].
  rewrite !take_ge; [done | lia | lia].
Qed.

Lemma slice_suffix l n :
  0 < n ≤ Py.len l →
  Py.slice l (Some (- n)) None = drop (length l - Z.to_nat n) l.
Proof.
  intros Hn. unfold Py.slice, Py.clamp; simpl. unfold Py.len in *.
  destruct (Z.ltb_spec (- n) 0); [|lia].
  rewrite Z.max_l by lia.
  replace (Z.to_nat (- n + Z.of_nat (length l))) with (length l - Z.to_nat n)%nat by lia.
  apply take_ge. rewrite length_drop. lia.
Qed.

Lemma slice_window l i n :
  0 ≤ i → 0 ≤ n →
  Py.slice l (Some i) (Some (i + n)) = take (Z.to_nat n) (drop (Z.to_nat i) l).
Proof.
  intros Hi Hn. unfold Py.slice, Py.clamp; simpl. unfold Py.len.
  destruct (Z.ltb_spec i 0), (Z.ltb_spec (i + n) 0); try lia.
  destruct (Z.le_gt_cases (Z.of_nat (length l)) i).
  - rewrite !Z.min_r by lia. rewrite !drop_ge by lia. by rewrite !take_nil.
  - rewrite (Z.min_l i) by lia.
    destruct (Z.min_spec (i + n) (Z.of_nat (length l))) as [[? ->]|[? ->]].
    + f_equal. lia.
    + rewrite !take_ge; [done | rewrite length_drop; lia | rewrite length_drop; lia].
Qed.

Lemma range_step_from_0 n step :
  0 < step →
  Py.range_step 0 n step
  = (λ k : nat, Z.of_nat k * step) <$> seq 0 (Z.to_nat ((n + step - 1) `div` step)).
Proof.
  intros Hstep. unfold Py.range_step, seqZ.
  rewrite Z.sub_0_r, <- list_fmap_compose.
  apply list_fmap_ext. intros _ k _. simpl. lia.
Qed.

Lemma enumerate_imap l :
  Py.enumerate l = imap (λ k x, (Z.of_nat k, x)) l.
Proof.
  unfold Py.enumerate, Py.range, Py.len, seqZ. rewrite Nat2Z.id.
  apply list_eq. intros k.
  rewrite lookup_zip_with, list_lookup_fmap, list_lookup_imap.
  destruct (l !! k) as [x|] eqn:Hk; simpl.
  - rewrite lookup_seq_lt by (eapply lookup_lt_Some; eauto). simpl. do 2 f_equal. lia.
  - by destruct (seq 0 (length l) !! k).
Qed.

End BuiltinFacts.

(** ** The generator *)

Section GeneratorFacts.
Context {T : Type} `{PyArith T}.
Implicit Types (first_term common_difference : T) (num_terms i : Z).

Lemma loop_fold first_term common_difference ids seq :
  rtc (loop_step first_term common_difference)
      (LoopState ids seq)
      (LoopState []
         (fold_left (λ seq i, seq ++ [term first_term common_difference i]) ids seq)).
Proof.
  revert seq. induction ids as [|i ids IH]; intros seq; simpl.
  - apply rtc_refl.
  - eapply rtc_l; [apply loop_iter | apply IH].
Qed.

Lemma loop_step_det first_term common_difference s s1 s2 :
  loop_step first_term common_difference s s1 →
  loop_step first_term common_difference s s2 → s1 = s2.
Proof. intros H1 H2. inversion H1; subst. inversion H2; subst. done. Qed.

Lemma loop_final first_term common_difference seq s :
  ¬ loop_step first_term common_difference (LoopState [] seq) s.
Proof. intros Hs. inversion Hs. Qed.

Lemma loop_unique first_term common_difference s seq1 seq2 :
  rtc (loop_step first_term common_difference) s (LoopState [] seq1) →
  rtc (loop_step first_term common_difference) s (LoopState [] seq2) →
  seq1 = seq2.
Proof.
  intros H1. revert seq2.
  remember (LoopState [] seq1) as f eqn:Hf.
  induction H1 as [s|s s' f Hstep Hrest IH]; intros seq2 H2; subst.
  - inversion H2 as [|? ? ? Hstep]; subst; [done|].
    by apply loop_final in Hstep.
  - inversion H2 as [|? s'' ? Hstep2 Hrest2]; subst.
    + by apply loop_final in Hstep.
    + rewrite <- (loop_step_det _ _ _ _ _ Hstep Hstep2) in Hrest2. by apply IH.
Qed.

Lemma returns_generate first_term common_difference num_terms :
  returns first_term common_difference num_terms
    (generate_arithmetic_sequence first_term common_difference num_terms).
Proof. apply loop_fold. Qed.

Lemma returns_inv first_term common_difference num_terms result :
  returns first_term common_difference num_terms result →
  result = generate_arithmetic_sequence first_term common_difference num_terms.
Proof. intros Hr. eapply loop_unique; [apply Hr | apply returns_generate]. Qed.

Lemma fold_append_fmap first_term common_difference ids seq :
  fold_left (λ seq i, seq ++ [term first_term common_difference i]) ids seq
  = seq ++ (term first_term common_difference <$> ids).
Proof.
  revert seq. induction ids as [|i ids IH]; intros seq; simpl.
  - by rewrite app_nil_r.
  - by rewrite IH, <- app_assoc.
Qed.

Lemma generate_fmap first_term common_difference num_terms :
  generate_arithmetic_sequence first_term common_difference num_terms
  = term first_term common_difference <$> Py.range num_terms.
Proof. unfold generate_arithmetic_sequence. by rewrite fold_append_fmap. Qed.

Lemma generate_length first_term common_difference num_terms :
  length (generate_arithmetic_sequence first_term common_difference num_terms)
  = Z.to_nat num_terms.
Proof. rewrite generate_fmap, length_fmap. apply length_seqZ. Qed.

Lemma generate_len first_term common_difference num_terms :
  0 ≤ num_terms →
  Py.len (generate_arithmetic_sequence first_term common_difference num_terms)
  = num_terms.
Proof. intros. unfold Py.len. rewrite generate_length. lia. Qed.

Lemma generate_lookup first_term common_difference num_terms (k : nat) :
  Z.of_nat k < num_terms →
  generate_arithmetic_sequence first_term common_difference num_terms !! k
  = Some (term first_term common_difference (Z.of_nat k)).
Proof.
  intros Hk. rewrite generate_fmap, list_lookup_fmap.
  unfold Py.range. by rewrite lookup_seqZ_lt.
Qed.


(** C1: for a valid request and every index [i] in [0, num_terms),
    [sequence[i]] is [first_term + i * common_difference], the sum and
    the product being those of the numbers' own type. *)
Theorem generate_term_formula first_term common_difference num_terms i :
  1 ≤ num_terms ≤ 1000 → 0 ≤ i < num_terms →
  Py.index
    (generate_arithmetic_sequence first_term common_difference num_terms) i
  = Some (py_add first_term (py_mul (py_of_int i) common_difference)).
Proof.
  intros Hn Hi. rewrite index_lookup by (rewrite generate_len; lia).
  rewrite generate_lookup by lia. unfold term. by rewrite Z2Nat.id by lia.
Qed.

(** C2: for a valid request the returned list has [num_terms] elements. *)
Theorem generate_len_valid first_term common_difference num_terms :
  1 ≤ num_terms ≤ 1000 →
  Py.len (generate_arithmetic_sequence first_term common_difference num_terms)
  = num_terms.
Proof. intros Hn. apply generate_len. lia. Qed.

End GeneratorFacts.

(** ** Calls in the interpreter *)

(** The limit is where the float of an [int] stops being finite. *)
Example float_int_limit_boundary :
  Py.float_int_fits (Py.float_int_limit - 1) = true
  ∧ is_finite (Py.float_of_int (Py.float_int_limit - 1)) = true
  ∧ Py.float_int_fits Py.float_int_limit = false
  ∧ Py.float_of_int Py.float_int_limit = infinity
  ∧ Py.float_int_fits (- Py.float_int_limit) = false
  ∧ Py.float_of_int (- Py.float_int_limit) = neg_infinity.
Proof. repeat split; vm_compute; reflexivity. Qed.

(** The store is state: appending twice to the list object that is
    already there is seen by whoever holds it, and a new list object
    does not disturb it. *)
Example store_is_state :
  Interp.bind (Interp.list_append 0 7) (λ _, Interp.list_append 0 8) [[1; 2]]
  = (Returned (), [[1; 2; 7; 8]])
  ∧ Interp.bind Interp.new_list (λ r, Interp.list_append r 7) [[1; 2]]
    = (Returned (), [[1; 2]; [7]]).
Proof. split; reflexivity. Qed.

Section CallFacts.
Context {T : Type} `{PyArith T} `{PyPromote T}.
Implicit Types (first_term common_difference : T) (num_terms i : Z).
Implicit Types (h : list (list T)) (l : list T).

Lemma loop_body_fits first_term common_difference h l i :
  py_int_fits i = true →
  Interp.loop_body first_term common_difference (length h) i (h ++ [l])
  = (Returned (), h ++ [l ++ [term first_term common_difference i]]).
Proof.
  intros Hfit. unfold Interp.loop_body, Interp.bind, Interp.promote.
  rewrite Hfit. unfold Interp.ret, Interp.list_append. f_equal.
  rewrite <- (Nat.add_0_r (length h)) at 1. by rewrite alter_app_r.
Qed.

Lemma loop_body_raises first_term common_difference (r : nat) h i :
  py_int_fits i = false →
  Interp.loop_body first_term common_difference r i h = (Raised OverflowError, h).
Proof.
  intros Hfit. unfold Interp.loop_body, Interp.bind, Interp.promote.
  by rewrite Hfit.
Qed.



(** What a loop does to the store does not depend on what is in the
    store: it touches the list it appends to, nothing else. *)
Lemma for_each_shape first_term common_difference ids l :
  ∃ (o : outcome unit) l',
    ∀ h, Interp.for_each ids
           (Interp.loop_body first_term common_difference (length h)) (h ++ [l])
         = (o, h ++ [l']).
Proof.
  revert l. induction ids as [|i ids IH]; intros l.
  - by exists (Returned ()), l.
  - destruct (py_int_fits i) eqn:Hi.
    + destruct (IH (l ++ [term first_term common_difference i])) as (o & l' & Hrun).
      exists o, l'. intros h. simpl. unfold Interp.bind.
      by rewrite loop_body_fits, Hrun.
    + exists (Raised OverflowError), l. intros h. simpl. unfold Interp.bind.
      by rewrite loop_body_raises.
Qed.

Lemma call_shape first_term common_difference num_terms :
  ∃ (o : outcome unit) l,
    ∀ h, Interp.generate_arithmetic_sequence
           first_term common_difference num_terms h
         = (match o with
            | Returned _ => Returned (length h)
            | Raised e => Raised e
            end, h ++ [l]).
Proof.
  destruct (for_each_shape first_term common_difference (Py.range num_terms) [])
    as (o & l & Hrun).
  exists o, l. intros h.
  unfold Interp.generate_arithmetic_sequence, Interp.bind, Interp.new_list.
  rewrite Hrun. by destruct o.
Qed.



Lemma result_of_new (o : outcome unit) h l (h2 : list (list T)) :
  Interp.result_of
    (match o with
     | Returned _ => Returned (length h)
     | Raised e => Raised e
     end, h ++ l :: h2)
  = match o with Returned _ => Returned l | Raised e => Raised e end.
Proof.
  unfold Interp.result_of. destruct o as [[]|e]; simpl; [|done].
  by rewrite list_lookup_middle.
Qed.

(** C9: the generator is deterministic.  Whatever list objects the
    interpreter holds when a call is made, the call gives the same
    result for the same arguments, the same list or the same exception.
    When the call is made twice in a row, the second call gives what the
    first gave, it leaves the list that the first call returned as it was,
    and the two calls leave every list that was there before as it was. *)
Theorem call_deterministic first_term common_difference num_terms h h' :
  Interp.returned first_term common_difference num_terms h
  = Interp.returned first_term common_difference num_terms h'
  ∧ (let run1 :=
       Interp.generate_arithmetic_sequence
         first_term common_difference num_terms h in
     let run2 :=
       Interp.generate_arithmetic_sequence
         first_term common_difference num_terms run1.2 in
     Interp.result_of run2 = Interp.result_of run1
     ∧ Interp.result_of (run1.1, run2.2) = Interp.result_of run1
     ∧ take (length h) run2.2 = h).
Proof.
  destruct (call_shape first_term common_difference num_terms) as (o & l & Hrun).
  pose proof (result_of_new o) as Hres.
  split.
  - unfold Interp.returned. rewrite (Hrun h), (Hrun h').
    by rewrite (Hres h l []), (Hres h' l []).
  - cbv zeta. rewrite (Hrun h). cbn [fst snd]. rewrite (Hrun (h ++ [l])).
    cbn [fst snd]. split; [|split].
    + by rewrite (Hres (h ++ [l]) l []), (Hres h l []).
    + rewrite <- app_assoc. cbn [app].
      by rewrite (Hres h l [l]), (Hres h l []).
    + rewrite <- app_assoc. apply take_app_length.
Qed.

End CallFacts.




(** ** The page *)

Lemma errors_app p q : errors (p ++ q) = errors p ++ errors q.
Proof. apply omap_app. Qed.

Lemma downloads_app p q : downloads (p ++ q) = downloads p ++ downloads q.
Proof. apply omap_app. Qed.

Lemma metrics_app p q : metrics (p ++ q) = metrics p ++ metrics q.
Proof. apply omap_app. Qed.

Section PresentationFacts.
Context {T : Type} `{PyArith T} `{PyFormat T}.
Implicit Types (first_term common_difference : T) (num_terms : Z).
Implicit Types (sequence : list T).

Lemma chunks_spec sequence :
  chunks sequence
  = (λ k : nat, (20 * Z.of_nat k, take 20 (drop (20 * k) sequence)))
      <$> seq 0 ((length sequence + 19) / 20).
Proof.
  unfold chunks, chunk_size. rewrite range_step_from_0 by lia.
  rewrite <- list_fmap_compose.
  replace (Z.to_nat ((Py.len sequence + 20 - 1) `div` 20))
    with ((length sequence + 19) / 20)%nat.
  2:{ unfold Py.len. apply Nat2Z.inj.
      rewrite Z2Nat.id by (apply Z.div_pos; lia).
      rewrite Nat2Z.inj_div. f_equal; lia. }
  apply list_fmap_ext. intros _ k _. unfold compose. cbv beta.
  rewrite slice_window by lia. change (Z.to_nat 20) with 20%nat.
  f_equal; [lia|]. do 2 f_equal. lia.
Qed.

(** Cutting a list into pieces of [c] elements loses nothing. *)
Lemma pieces_take {A} (l : list A) (c m : nat) :
  mjoin ((λ k, take c (drop (c * k) l)) <$> seq 0 m) = take (c * m) l.
Proof.
  induction m as [|m IH].
  - by rewrite Nat.mul_0_r.
  - rewrite seq_S, fmap_app, join_app, IH. simpl. rewrite app_nil_r.
    rewrite take_take_drop. f_equal. lia.
Qed.

Lemma pieces_cover {A} (l : list A) :
  mjoin ((λ k, take 20 (drop (20 * k) l)) <$> seq 0 ((length l + 19) / 20)) = l.
Proof.
  rewrite pieces_take. apply take_ge.
  pose proof (Nat.div_mod_eq (length l + 19) 20).
  pose proof (Nat.mod_upper_bound (length l + 19) 20). lia.
Qed.

Lemma last_term_nonempty sequence :
  0 < Py.len sequence → ∃ t, last_term sequence = Some t.
Proof.
  intros Hlen. unfold last_term.
  destruct (Z.ltb_spec 1 (Py.len sequence)).
  - rewrite index_from_end by lia. apply lookup_lt_is_Some_2.
    unfold Py.len in *. lia.
  - rewrite index_lookup by lia. apply lookup_lt_is_Some_2.
    unfold Py.len in *. simpl. lia.
Qed.

Lemma errors_show_sequence sequence : errors (show_sequence sequence) = [].
Proof. unfold show_sequence. by repeat case_match. Qed.

Lemma downloads_show_sequence sequence : downloads (show_sequence sequence) = [].
Proof. unfold show_sequence. by repeat case_match. Qed.

Lemma errors_results first_term common_difference num_terms sequence :
  0 < Py.len sequence →
  errors (results first_term common_difference num_terms sequence) = [].
Proof.
  intros Hlen. destruct (last_term_nonempty sequence Hlen) as [t Ht].
  unfold results. rewrite Ht, !errors_app, errors_show_sequence.
  unfold download_option. by case_match.
Qed.

Lemma downloads_results first_term common_difference num_terms sequence :
  0 < Py.len sequence →
  downloads (results first_term common_difference num_terms sequence)
  = downloads (download_option first_term common_difference num_terms sequence).
Proof.
  intros Hlen. destruct (last_term_nonempty sequence Hlen) as [t Ht].
  unfold results. rewrite Ht, !downloads_app, downloads_show_sequence.
  unfold download_option. by case_match.
Qed.

Lemma main_valid first_term common_difference num_terms :
  1 ≤ num_terms ≤ 1000 →
  main first_term common_difference num_terms
  = Run (input_section
         ++ results first_term common_difference num_terms
              (generate_arithmetic_sequence first_term common_difference num_terms)
         ++ about_section)
        [ (first_term, common_difference, num_terms) ].
Proof.
  intros Hn. unfold main.
  destruct (Z.leb_spec num_terms 0); [lia|].
  by destruct (Z.ltb_spec 1000 num_terms); [lia|].
Qed.

Lemma sequence_text_lines sequence :
  sequence_text sequence
  = Py.join newline
      (imap (λ k t, "Term " +:+ Py.str_int (Z.of_nat k + 1) +:+ ": " +:+ format_g t)
            sequence).
Proof. unfold sequence_text. by rewrite enumerate_imap, fmap_imap. Qed.

Lemma generate_one first_term common_difference :
  generate_arithmetic_sequence first_term common_difference 1
  = [ term first_term common_difference 0 ].
Proof. by rewrite generate_fmap. Qed.

(** The metrics shown for a sequence of one term: the last term shown
    is that term. *)
Lemma metrics_single first_term common_difference num_terms (t : T) :
  metrics (results first_term common_difference num_terms [t])
  = [ ("First Term", format_str first_term);
      ("Common Difference", format_str common_difference);
      ("Number of Terms", Py.str_int num_terms);
      ("Sum of all terms", format_g (Py.sum [t]));
      ("Last term", format_g t) ].
Proof. reflexivity. Qed.

(** C3: when [num_terms <= 0] or [num_terms > 1000] the run shows the
    inputs and one validation message, nothing else, and does not call
    the generator; when [1 <= num_terms <= 1000] it calls the generator
    once, on the three inputs, and shows the results of that call
    without any error message. *)
Theorem main_validation first_term common_difference num_terms :
  (num_terms ≤ 0 →
     main first_term common_difference num_terms
     = Run (input_section
            ++ [ st_error "Number of terms must be a positive integer." ]) [])
  ∧ (1000 < num_terms →
     main first_term common_difference num_terms
     = Run (input_section
            ++ [ st_error "Number of terms cannot exceed 1000 for performance reasons." ]) [])
  ∧ (1 ≤ num_terms ≤ 1000 →
     generator_calls (main first_term common_difference num_terms)
     = [ (first_term, common_difference, num_terms) ]
     ∧ page (main first_term common_difference num_terms)
       = input_section
         ++ results first_term common_difference num_terms
              (generate_arithmetic_sequence first_term common_difference num_terms)
         ++ about_section
     ∧ errors (page (main first_term common_difference num_terms)) = []).
Proof.
  split; [|split].
  - intros Hn. unfold main. by destruct (Z.leb_spec num_terms 0); [|lia].
  - intros Hn. unfold main.
    destruct (Z.leb_spec num_terms 0); [lia|].
    by destruct (Z.ltb_spec 1000 num_terms); [|lia].
  - intros Hn. rewrite main_valid by done. cbn [page generator_calls].
    split; [done|]. split; [done|].
    rewrite !errors_app, errors_results by (rewrite generate_len; lia). done.
Qed.

(** C5: a sequence of at most 50 terms is shown as one line, its terms
    joined by commas.  A longer one is shown as the line of its first
    10 terms, the line of its last 10 terms, and an expander that holds
    the whole sequence cut into chunks of 20 terms, the chunk that
    starts after [20 * k] terms being labelled with the 1-based range
    [20 * k + 1] to [min (20 * k + 20) (len sequence)]. *)
Theorem presentation_by_length sequence :
  (Py.len sequence ≤ 50 →
     show_sequence sequence
     = [ st_code (Py.join ", " (format_g <$> sequence)) ])
  ∧ (50 < Py.len sequence →
     show_sequence sequence
     = [ st_write ("**First 10 terms:** "
                   +:+ Py.join ", " (format_g <$> take 10 sequence));
         st_write ("**Last 10 terms:** "
                   +:+ Py.join ", "
                         (format_g <$> drop (length sequence - 10) sequence));
         st_expander "Show complete sequence"
           ((λ k : nat,
               st_text ("Terms " +:+ Py.str_int (20 * Z.of_nat k + 1) +:+ "-"
                        +:+ Py.str_int (Z.min (20 * Z.of_nat k + 20) (Py.len sequence))
                        +:+ ": "
                        +:+ Py.join ", "
                              (format_g <$> take 20 (drop (20 * k) sequence))))
              <$> seq 0 ((length sequence + 19) / 20)) ]
     ∧ mjoin ((λ k, take 20 (drop (20 * k) sequence))
                <$> seq 0 ((length sequence + 19) / 20))
       = sequence).
Proof.
  split; intros Hlen; unfold show_sequence.
  - by destruct (Z.leb_spec (Py.len sequence) 50); [|lia].
  - split; [|apply pieces_cover].
    destruct (Z.leb_spec (Py.len sequence) 50); [lia|].
    destruct (Z.ltb_spec 20 (Py.len sequence)); [|lia].
    rewrite slice_prefix by lia.
    change (-10) with (Z.opp 10). rewrite slice_suffix by lia.
    rewrite chunks_spec, <- list_fmap_compose. done.
Qed.

(** C7: for a valid request the download button is on the page exactly
    when the sequence has more than 10 terms.  Its data has one line per
    term, [Term <1-based index>: <value>], and its file name is
    [arithmetic_sequence_<first_term>_<common_difference>_<num_terms>.txt]. *)
Theorem download_offer first_term common_difference num_terms :
  1 ≤ num_terms ≤ 1000 →
  downloads (page (main first_term common_difference num_terms))
  = if 10 <? Py.len (generate_arithmetic_sequence
                       first_term common_difference num_terms)
    then [ ("arithmetic_sequence_" +:+ format_str first_term +:+ "_"
              +:+ format_str common_difference +:+ "_"
              +:+ Py.str_int num_terms +:+ ".txt",
            Py.join newline
              (imap (λ k t, "Term " +:+ Py.str_int (Z.of_nat k + 1) +:+ ": "
                            +:+ format_g t)
                 (generate_arithmetic_sequence
                    first_term common_difference num_terms))) ]
    else [].
Proof.
  intros Hn. rewrite main_valid by done. cbn [page].
  rewrite !downloads_app, downloads_results by (rewrite generate_len; lia).
  unfold download_option. case_match; [|done].
  by rewrite sequence_text_lines.
Qed.

End PresentationFacts.

(** ** Floats *)

Section FloatFacts.
Implicit Types (x d : float).

Lemma float_of_int_0 : Py.float_of_int 0 = zero.
Proof. reflexivity. Qed.

(** A finite float is a zero or [m * 2^e]. *)
Lemma finite_cases x :
  is_finite x = true →
  (∃ s, Prim2SF x = S754_zero s) ∨ (∃ s m e, Prim2SF x = S754_finite s m e).
Proof.
  unfold is_finite, is_nan, is_infinity.
  rewrite !FloatAxioms.eqb_spec, abs_spec.
  change (Prim2SF infinity) with (S754_infinity false).
  destruct (Prim2SF x) as [s| s | |s m e]; simpl; eauto.
  - by destruct s.
  - done.
Qed.

Lemma SFeqb_refl_finite s m e :
  SFeqb (S754_finite s m e) (S754_finite s m e) = true.
Proof.
  unfold SFeqb, SFcompare.
  destruct s; by rewrite Z.compare_refl, Pos.compare_cont_refl.
Qed.

(** [0 * d] is a zero when [d] is finite. *)
Lemma mul_zero_finite d :
  is_finite d = true → ∃ s, Prim2SF (zero * d) = S754_zero s.
Proof.
  intros Hd. rewrite mul_spec. change (Prim2SF zero) with (S754_zero false).
  destruct (finite_cases d Hd) as [[s ->]|(s & m & e & ->)]; simpl; eauto.
Qed.

(** [x + 0 * d == x] for finite [x] and [d], and the two are the same
    float unless [x] is a zero. *)
Lemma add_mul_zero x d :
  is_finite x = true → is_finite d = true →
  Py.float_eq (x + zero * d) x = true
  ∧ (is_zero x = false → (x + zero * d)%float = x).
Proof.
  intros Hx Hd. destruct (mul_zero_finite d Hd) as [sz Hz].
  unfold Py.float_eq, is_zero.
  rewrite !FloatAxioms.eqb_spec, add_spec, Hz.
  change (Prim2SF zero) with (S754_zero false).
  destruct (finite_cases x Hx) as [[s Hs]|(s & m & e & Hs)]; rewrite Hs.
  - split; [by destruct s, sz | done].
  - simpl. split; [apply SFeqb_refl_finite|].
    intros _. apply Prim2SF_inj. by rewrite add_spec, Hz, Hs.
Qed.

End FloatFacts.

(** ** Chunks *)

Section Chunking.
Context {T : Type} `{PyArith T} `{PyFormat T}.
Implicit Types (first_term common_difference : T).

(** C4, as amended: with 45 terms the page shows the single inline line
    and no chunk, chunks being shown for more than 50 terms only; the
    chunking of lines 111-115 applied to the 45 terms gives 3 chunks of
    20, 20 and 5 terms, labelled [Terms 1-20], [Terms 21-40] and
    [Terms 41-45]. *)
Theorem chunking_of_45 first_term common_difference :
  let sequence := generate_arithmetic_sequence first_term common_difference 45 in
  inline_lines (page (main first_term common_difference 45))
  = [ terms_str sequence ]
  ∧ chunk_lines (page (main first_term common_difference 45)) = []
  ∧ chunk_line sequence <$> chunks sequence
    = [ st_text ("Terms 1-20: " +:+ terms_str (take 20 sequence));
        st_text ("Terms 21-40: " +:+ terms_str (take 20 (drop 20 sequence)));
        st_text ("Terms 41-45: " +:+ terms_str (drop 40 sequence)) ]
  ∧ length <$> (snd <$> chunks sequence) = [20; 20; 5]%nat.
Proof.
  intros sequence. subst sequence.
  rewrite main_valid by lia. rewrite generate_fmap.
  let r := eval vm_compute in (Py.range 45) in change (Py.range 45) with r.
  repeat split; reflexivity.
Qed.

End Chunking.

(** C4, as stated, fails: with first term 1, common difference 1 and 45
    terms the page has no chunk line at all; the 45 terms are on the one
    inline line. *)
Lemma no_chunks_for_45 :
  chunk_lines (page (main 1%float 1%float 45)) = []
  ∧ inline_lines (page (main 1%float 1%float 45))
    = [ "1, 2, 3, 4, 5, 6, 7, 8, 9, 10, 11, 12, 13, 14, 15, 16, 17, 18, 19, 20, 21, 22, 23, 24, 25, 26, 27, 28, 29, 30, 31, 32, 33, 34, 35, 36, 37, 38, 39, 40, 41, 42, 43, 44, 45" ].
Proof. split; vm_compute; reflexivity. Qed.

(** ** The examples of the specification *)

(** C6: the two examples, on floats as the page computes them and on
    Python integers: the sequence, its sum and its last term, and for the
    floats what the page shows of them. *)
Theorem spec_examples :
  generate_arithmetic_sequence 1%float 1%float 10
  = [1; 2; 3; 4; 5; 6; 7; 8; 9; 10]%float
  ∧ Py.sum (generate_arithmetic_sequence 1%float 1%float 10) = 55%float
  ∧ last_term (generate_arithmetic_sequence 1%float 1%float 10) = Some 10%float
  ∧ inline_lines (page (main 1%float 1%float 10))
    = [ "1, 2, 3, 4, 5, 6, 7, 8, 9, 10" ]
  ∧ metrics (page (main 1%float 1%float 10))
    = [ ("First Term", "1.0"); ("Common Difference", "1.0");
        ("Number of Terms", "10");
        ("Sum of all terms", "55"); ("Last term", "10") ]
  ∧ generate_arithmetic_sequence 5%float (-2)%float 5
    = [5; 3; 1; -1; -3]%float
  ∧ Py.sum (generate_arithmetic_sequence 5%float (-2)%float 5) = 5%float
  ∧ last_term (generate_arithmetic_sequence 5%float (-2)%float 5)
    = Some (-3)%float
  ∧ inline_lines (page (main 5%float (-2)%float 5)) = [ "5, 3, 1, -1, -3" ]
  ∧ metrics (page (main 5%float (-2)%float 5))
    = [ ("First Term", "5.0"); ("Common Difference", "-2.0");
        ("Number of Terms", "5");
        ("Sum of all terms", "5"); ("Last term", "-3") ]
  ∧ generate_arithmetic_sequence 1 1 10 = [1; 2; 3; 4; 5; 6; 7; 8; 9; 10]
  ∧ Py.sum (generate_arithmetic_sequence 1 1 10) = 55
  ∧ last_term (generate_arithmetic_sequence 1 1 10) = Some 10
  ∧ generate_arithmetic_sequence 5 (-2) 5 = [5; 3; 1; -1; -3]
  ∧ Py.sum (generate_arithmetic_sequence 5 (-2) 5) = 5
  ∧ last_term (generate_arithmetic_sequence 5 (-2) 5) = Some (-3).
Proof. repeat split; vm_compute; reflexivity. Qed.

(** ** Boundaries *)

(** C8: with one term the sequence is [[first_term]]: its only term [t]
    is equal to the first term as Python compares floats, and is the same
    float unless the first term is a zero; the page shows that term as
    the last term.  With 1000 terms the generator is called, returns 1000
    terms and the page has no error message.  On Python integers the
    sequence of one term is [[first_term]] itself. *)
Theorem boundary_requests (first_term common_difference : float) :
  is_finite first_term = true → is_finite common_difference = true →
  (∃ t,
     generate_arithmetic_sequence first_term common_difference 1 = [t]
     ∧ Py.float_eq t first_term = true
     ∧ (is_zero first_term = false → t = first_term)
     ∧ Py.index [t] (-1) = Py.index [t] 0
     ∧ last_term [t] = Some t
     ∧ metrics (page (main first_term common_difference 1))
       = [ ("First Term", format_str first_term);
           ("Common Difference", format_str common_difference);
           ("Number of Terms", "1");
           ("Sum of all terms", format_g (Py.sum [t]));
           ("Last term", format_g t) ])
  ∧ Py.len (generate_arithmetic_sequence first_term common_difference 1000) = 1000
  ∧ generator_calls (main first_term common_difference 1000)
    = [ (first_term, common_difference, 1000) ]
  ∧ errors (page (main first_term common_difference 1000)) = []
  ∧ (∀ a d : Z, generate_arithmetic_sequence a d 1 = [a]).
Proof.
  intros Hx Hd. split; [|split; [|split; [|split]]].
  - exists (term first_term common_difference 0).
    destruct (add_mul_zero first_term common_difference Hx Hd) as [Heq Hsame].
    split; [apply generate_one|]. split; [exact Heq|]. split; [exact Hsame|].
    split; [done|]. split; [done|].
    rewrite main_valid by lia. cbn [page].
    by rewrite generate_one, !metrics_app, metrics_single.
  - by apply generate_len.
  - by rewrite main_valid by lia.
  - rewrite main_valid by lia. cbn [page].
    rewrite !errors_app, errors_results by (rewrite generate_len; lia). done.
  - intros a d. rewrite generate_one. unfold term. simpl. f_equal. lia.
Qed.

(** ** The theorems at concrete requests *)

Lemma generate_term_formula_witness :
  (1 ≤ 5 ≤ 1000 ∧ 0 ≤ 3 < 5)
  ∧ Py.index (generate_arithmetic_sequence 5%float (-2)%float 5) 3
    = Some (-1)%float.
Proof.
  split; [lia|].
  rewrite (generate_term_formula 5%float (-2)%float 5 3) by lia. by vm_compute.
Defined.

Lemma generate_len_valid_witness :
  1 ≤ 1000 ≤ 1000
  ∧ Py.len (generate_arithmetic_sequence 1%float 1%float 1000) = 1000.
Proof. split; [lia|]. apply (generate_len_valid 1%float 1%float 1000); lia. Defined.

Lemma main_validation_witness :
  (0 ≤ 0
   ∧ main 1%float 1%float 0
     = Run (input_section
            ++ [ st_error "Number of terms must be a positive integer." ]) [])
  ∧ (1000 < 1001
     ∧ main 1%float 1%float 1001
       = Run (input_section
              ++ [ st_error "Number of terms cannot exceed 1000 for performance reasons." ]) [])
  ∧ (1 ≤ 1000 ≤ 1000
     ∧ generator_calls (main 1%float 1%float 1000) = [ (1%float, 1%float, 1000) ]
     ∧ errors (page (main 1%float 1%float 1000)) = []).
Proof.
  split; [|split].
  - split; [lia|]. apply (main_validation 1%float 1%float 0). lia.
  - split; [lia|]. apply (main_validation 1%float 1%float 1001). lia.
  - split; [lia|].
    destruct (main_validation 1%float 1%float 1000) as (_ & _ & Hvalid).
    destruct Hvalid as (Hcalls & _ & Herrors); [lia|]. by split.
Defined.

Lemma presentation_by_length_witness :
  (Py.len [1; 2; 3]%float ≤ 50
   ∧ show_sequence [1; 2; 3]%float = [ st_code "1, 2, 3" ])
  ∧ (50 < Py.len (generate_arithmetic_sequence 1%float 1%float 51)
     ∧ written_lines
         (show_sequence (generate_arithmetic_sequence 1%float 1%float 51))
       = [ "**First 10 terms:** 1, 2, 3, 4, 5, 6, 7, 8, 9, 10";
           "**Last 10 terms:** 42, 43, 44, 45, 46, 47, 48, 49, 50, 51" ]).
Proof.
  split.
  - split; [by vm_compute|].
    destruct (presentation_by_length [1; 2; 3]%float) as [Hshort _].
    rewrite Hshort by (by vm_compute). by vm_compute.
  - split; [by vm_compute|].
    destruct (presentation_by_length
                (generate_arithmetic_sequence 1%float 1%float 51)) as [_ Hlong].
    destruct Hlong as [-> _]; [by vm_compute|]. by vm_compute.
Defined.

Lemma download_offer_witness :
  1 ≤ 11 ≤ 1000
  ∧ downloads (page (main 0.5%float 0.25%float 11))
    = [ ("arithmetic_sequence_0.5_0.25_11.txt",
         "Term 1: 0.5
Term 2: 0.75
Term 3: 1
Term 4: 1.25
Term 5: 1.5
Term 6: 1.75
Term 7: 2
Term 8: 2.25
Term 9: 2.5
Term 10: 2.75
Term 11: 3") ].
Proof.
  split; [lia|].
  rewrite (download_offer 0.5%float 0.25%float 11) by lia. by vm_compute.
Defined.

Lemma boundary_requests_witness :
  (is_finite 1 = true ∧ is_finite (-2) = true)
  ∧ (∃ t, generate_arithmetic_sequence 1%float (-2)%float 1 = [t]
          ∧ Py.float_eq t 1 = true)
  ∧ Py.len (generate_arithmetic_sequence 1%float (-2)%float 1000) = 1000.
Proof.
  split; [by split|].
  destruct (boundary_requests 1 (-2)) as [(t & Hgen & Heq & _) (Hlen & _)];
    [reflexivity | reflexivity |].
  split; [|exact Hlen]. exists t. split; [exact Hgen | exact Heq].
Defined.


(** * Further properties of the script *)

(** ** The loop of the generator *)

Section LoopFacts.
Context {T : Type} `{PyArith T}.
Implicit Types (first_term common_difference : T) (num_terms : Z).

Lemma generate_index first_term common_difference num_terms i :
  0 ≤ i < num_terms →
  Py.index (generate_arithmetic_sequence first_term common_difference num_terms) i
  = Some (term first_term common_difference i).
Proof.
  intros Hi. rewrite index_lookup by (rewrite generate_len; lia).
  rewrite generate_lookup by lia. by rewrite Z2Nat.id by lia.
Qed.

Lemma generate_split first_term common_difference m n :
  0 ≤ m ≤ n →
  generate_arithmetic_sequence first_term common_difference n
  = generate_arithmetic_sequence first_term common_difference m
    ++ (term first_term common_difference <$> seqZ m (n - m)).
Proof.
  intros Hm. rewrite !generate_fmap, <- fmap_app. unfold Py.range.
  replace n with (m + (n - m)) at 1 by lia.
  by rewrite seqZ_app by lia.
Qed.

Lemma loop_step_pending first_term common_difference k s s' :
  nsteps (loop_step first_term common_difference) k s s' →
  length (pending s) = (k + length (pending s'))%nat.
Proof.
  induction 1 as [|k s s1 s' Hstep _ IH]; [done|].
  destruct Hstep. simpl in *. lia.
Qed.

Lemma loop_nsteps first_term common_difference ids seq :
  nsteps (loop_step first_term common_difference) (length ids)
    (LoopState ids seq)
    (LoopState []
       (fold_left (λ seq i, seq ++ [term first_term common_difference i]) ids seq)).
Proof.
  revert seq. induction ids as [|i ids IH]; intros seq; simpl.
  - constructor.
  - eapply nsteps_l; [apply loop_iter | apply IH].
Qed.

(** X1: a longer request extends a shorter one.  For [0 <= m <= n] the
    sequence of [n] terms is the sequence of [m] terms followed by the
    terms of index [m] to [n - 1]; so its first [m] terms are the
    sequence of [m] terms. *)
Theorem generate_extends first_term common_difference m n :
  0 ≤ m ≤ n →
  generate_arithmetic_sequence first_term common_difference n
  = generate_arithmetic_sequence first_term common_difference m
    ++ ((λ i, py_add first_term (py_mul (py_of_int i) common_difference))
          <$> seqZ m (n - m))
  ∧ take (Z.to_nat m) (generate_arithmetic_sequence first_term common_difference n)
    = generate_arithmetic_sequence first_term common_difference m.
Proof.
  intros Hm. split; [by apply generate_split|].
  rewrite (generate_split _ _ m n) by done.
  rewrite take_app_length'; [done|]. by rewrite generate_length.
Qed.

(** X2: the invariant of the loop.  In every state the loop reaches,
    [sequence] holds the terms of the indices already taken from the
    iterator, in order: it is the sequence of [k] terms for some [k], and
    the iterator has the indices [k] to [num_terms - 1] left. *)
Theorem loop_invariant first_term common_difference num_terms s :
  rtc (loop_step first_term common_difference)
      (LoopState (Py.range num_terms) []) s →
  ∃ k, 0 ≤ k
       ∧ sequence s = generate_arithmetic_sequence first_term common_difference k
       ∧ pending s = seqZ k (num_terms - k).
Proof.
  revert s. apply rtc_ind_r; [|intros s s' Hrun Hstep IH].
  - exists 0. split; [done|]. split; [done|]. simpl. unfold Py.range. f_equal. lia.
  - destruct IH as (k & Hk & Hseq & Hpend). destruct Hstep as [i rest seq].
    simpl in *. exists (k + 1).
    destruct (Z.le_gt_cases (num_terms - k) 0) as [Hle|Hgt].
    { by rewrite seqZ_nil in Hpend. }
    rewrite seqZ_cons in Hpend by done. injection Hpend as -> ->.
    split; [lia|]. split.
    + rewrite (generate_split _ _ k (k + 1)) by lia. rewrite Hseq.
      replace (k + 1 - k) with 1 by lia. done.
    + f_equal; lia.
Qed.

(** X3: the loop makes exactly [num_terms] iterations, none when
    [num_terms <= 0]: the run that ends with the returned list has that
    many steps, and no run to the end of the iterator has another number
    of steps. *)
Theorem loop_iterations first_term common_difference num_terms :
  nsteps (loop_step first_term common_difference) (Z.to_nat num_terms)
    (LoopState (Py.range num_terms) [])
    (LoopState []
       (generate_arithmetic_sequence first_term common_difference num_terms))
  ∧ ∀ k result,
      nsteps (loop_step first_term common_difference) k
        (LoopState (Py.range num_terms) []) (LoopState [] result) →
      k = Z.to_nat num_terms.
Proof.
  split.
  - rewrite <- (length_seqZ 0 num_terms). apply loop_nsteps.
  - intros k result Hrun. apply loop_step_pending in Hrun. simpl in Hrun.
    unfold Py.range in Hrun. rewrite length_seqZ in Hrun. lia.
Qed.

End LoopFacts.

(** ** Sequences of Python integers *)

Section IntFacts.
Implicit Types (a d n i j : Z).

Lemma int_term a d i : term a d i = a + i * d.
Proof. reflexivity. Qed.

Lemma int_sum_snoc (l : list Z) x : Py.sum (l ++ [x]) = Py.sum l + x.
Proof. unfold Py.sum. by rewrite fold_left_app. Qed.

Lemma int_sum_nat a d (k : nat) :
  2 * Py.sum (generate_arithmetic_sequence a d (Z.of_nat k))
  = Z.of_nat k * (2 * a + (Z.of_nat k - 1) * d).
Proof.
  induction k as [|k IH]; [done|].
  rewrite (generate_split a d (Z.of_nat k) (Z.of_nat (S k))) by lia.
  replace (Z.of_nat (S k) - Z.of_nat k) with 1 by lia.
  rewrite seqZ_cons, seqZ_nil by lia.
  rewrite list_fmap_singleton, int_sum_snoc, int_term. nia.
Qed.

(** X4: on integers two terms differ by the common difference times the
    distance of their indices; consecutive terms differ by the common
    difference. *)
Theorem int_terms_differ a d n i j :
  0 ≤ i < n → 0 ≤ j < n →
  ∃ x y,
    Py.index (generate_arithmetic_sequence a d n) i = Some x
    ∧ Py.index (generate_arithmetic_sequence a d n) j = Some y
    ∧ y - x = (j - i) * d.
Proof.
  intros Hi Hj. exists (term a d i), (term a d j).
  rewrite !generate_index by done. split; [done|]. split; [done|].
  rewrite !int_term. lia.
Qed.

(** X5: on integers the sequence is strictly increasing when the common
    difference is positive, strictly decreasing when it is negative, and
    repeats the first term when it is zero. *)
Theorem int_terms_order a d n :
  (0 < d → StronglySorted Z.lt (generate_arithmetic_sequence a d n))
  ∧ (d < 0 → StronglySorted Z.gt (generate_arithmetic_sequence a d n))
  ∧ (d = 0 → generate_arithmetic_sequence a d n = replicate (Z.to_nat n) a).
Proof.
  assert (Hrange : StronglySorted Z.lt (Py.range n)).
  { unfold Py.range. generalize 0.
    induction (Z.to_nat n) as [|k IH] eqn:Hk in n |- *; intros m.
    - rewrite seqZ_nil by lia. constructor.
    - rewrite seqZ_cons by lia. constructor; [apply IH; lia|].
      apply Forall_seqZ. lia. }
  rewrite generate_fmap. split; [|split]; intros Hd.
  - eapply StronglySorted_fmap; [|exact Hrange].
    intros x y Hxy. rewrite !int_term. nia.
  - eapply StronglySorted_fmap; [|exact Hrange].
    intros x y Hxy. rewrite !int_term. nia.
  - subst d. apply list_eq. intros k. rewrite list_lookup_fmap.
    destruct (decide (Z.of_nat k < n)) as [Hk|Hk].
    + unfold Py.range. rewrite lookup_seqZ_lt by done. simpl.
      rewrite lookup_replicate_2 by lia. f_equal. lia.
    + unfold Py.range. rewrite lookup_seqZ_ge by lia. simpl.
      symmetry. apply lookup_replicate_None. lia.
Qed.

(** X6: on integers the sum that the page shows is the sum of the
    arithmetic series: twice [sum(sequence)] is
    [num_terms * (2 * first_term + (num_terms - 1) * common_difference)],
    and the sum is 0 when there is no term. *)
Theorem int_sum_closed_form a d n :
  0 ≤ n →
  2 * Py.sum (generate_arithmetic_sequence a d n) = n * (2 * a + (n - 1) * d).
Proof.
  intros Hn. rewrite <- (Z2Nat.id n) by done. apply int_sum_nat.
Qed.

End IntFacts.

(** ** What the page shows *)

Section PageFacts.
Context {T : Type} `{PyArith T} `{PyFormat T}.
Implicit Types (first_term common_difference : T) (num_terms : Z).
Implicit Types (sequence : list T).

Lemma metrics_show_sequence sequence : metrics (show_sequence sequence) = [].
Proof. unfold show_sequence. by repeat case_match. Qed.

Lemma metrics_download_option first_term common_difference num_terms sequence :
  metrics (download_option first_term common_difference num_terms sequence) = [].
Proof. unfold download_option. by case_match. Qed.

Lemma last_term_last sequence : last_term sequence = last sequence.
Proof.
  unfold last_term. rewrite last_lookup.
  destruct (Z.ltb_spec 1 (Py.len sequence)) as [Hlen|Hlen].
  - rewrite index_from_end by lia. f_equal. unfold Py.len. lia.
  - destruct sequence as [|t [|t' sequence]]; [done | done |].
    unfold Py.len in Hlen. simpl in Hlen. lia.
Qed.

Lemma generate_last first_term common_difference num_terms :
  0 < num_terms →
  last (generate_arithmetic_sequence first_term common_difference num_terms)
  = Some (term first_term common_difference (num_terms - 1)).
Proof.
  intros Hn. rewrite (generate_split _ _ (num_terms - 1) num_terms) by lia.
  replace (num_terms - (num_terms - 1)) with 1 by lia.
  rewrite seqZ_cons, seqZ_nil by lia. apply last_snoc.
Qed.

Lemma chunk_bound (L k : nat) :
  (k < (L + 19) / 20)%nat ↔ (20 * k < L)%nat.
Proof.
  pose proof (Nat.div_mod_eq (L + 19) 20).
  pose proof (Nat.mod_upper_bound (L + 19) 20). lia.
Qed.

Lemma chunks_lookup sequence (k : nat) i (c : list T) :
  chunks sequence !! k = Some (i, c) ↔
  (20 * k < length sequence)%nat
  ∧ i = 20 * Z.of_nat k ∧ c = take 20 (drop (20 * k) sequence).
Proof.
  rewrite chunks_spec, list_lookup_fmap.
  destruct (decide (k < (length sequence + 19) / 20)%nat) as [Hk|Hk].
  - rewrite lookup_seq_lt by done. simpl. rewrite chunk_bound in Hk.
    split; [intros [= <- <-]; done | intros (_ & -> & ->); done].
  - rewrite lookup_seq_ge by lia. simpl. rewrite chunk_bound in Hk.
    split; [done | intros (? & _); lia].
Qed.

(** X7: the term shown as last is the last element of the sequence,
    whichever branch of lines 123-126 is taken; it is missing, and
    [sequence[0]] raises, exactly when the sequence is empty. *)
Theorem last_term_is_last sequence :
  last_term sequence = last sequence
  ∧ (last_term sequence = None ↔ sequence = []).
Proof.
  split; [apply last_term_last|]. rewrite last_term_last. apply last_None.
Qed.

(** X8: for a valid request the page has five metrics: the two inputs
    and the number of terms as texts, the sum of the sequence, and as
    last term [first_term + (num_terms - 1) * common_difference], the
    term that the formula on the page gives for [n = num_terms]. *)
Theorem main_metrics first_term common_difference num_terms :
  1 ≤ num_terms ≤ 1000 →
  metrics (page (main first_term common_difference num_terms))
  = [ ("First Term", format_str first_term);
      ("Common Difference", format_str common_difference);
      ("Number of Terms", Py.str_int num_terms);
      ("Sum of all terms",
       format_g (Py.sum (generate_arithmetic_sequence
                           first_term common_difference num_terms)));
      ("Last term",
       format_g (py_add first_term
                   (py_mul (py_of_int (num_terms - 1)) common_difference))) ].
Proof.
  intros Hn. rewrite main_valid by done. cbn [page].
  rewrite !metrics_app. unfold results.
  rewrite last_term_last, generate_last by lia.
  rewrite !metrics_app, metrics_show_sequence. cbn [metrics omap app].
  rewrite <- (app_nil_r [_]) at 1.
  change (metrics (?e :: ?p)) with (metrics [e] ++ metrics p).
  by rewrite metrics_download_option.
Qed.

(** X9: the handler of line 138 adds its message exactly when the
    sequence is empty, the one case in which the block raises
    ([sequence[0]] on an empty list); then the line of the sequence and
    the sum are on the page already, and no download is offered. *)
Theorem results_handler first_term common_difference num_terms sequence :
  errors (results first_term common_difference num_terms sequence)
  = match sequence with
    | [] => [ "An error occurred while generating the sequence: list index out of range" ]
    | _ :: _ => []
    end
  ∧ inline_lines (results first_term common_difference num_terms [])
    = [ EmptyString ]
  ∧ metrics (results first_term common_difference num_terms [])
    = [ ("First Term", format_str first_term);
        ("Common Difference", format_str common_difference);
        ("Number of Terms", Py.str_int num_terms);
        ("Sum of all terms", format_g (py_of_int 0)) ]
  ∧ downloads (results first_term common_difference num_terms []) = [].
Proof.
  split; [|done].
  destruct sequence as [|t sequence]; [done|].
  apply errors_results. unfold Py.len. simpl. lia.
Qed.

(** X10: a sequence is cut into [ceil(len / 20)] chunks, none when it is
    empty; every chunk but the last has 20 terms and the last one ends
    with the last term of the sequence. *)
Theorem chunks_count sequence :
  Py.len (chunks sequence) = (Py.len sequence + 19) `div` 20
  ∧ ∀ (k : nat) i c,
      chunks sequence !! k = Some (i, c) →
      if decide (S k = length (chunks sequence))
      then i + Py.len c = Py.len sequence
      else Py.len c = 20.
Proof.
  assert (Hcount : length (chunks sequence) = ((length sequence + 19) / 20)%nat).
  { by rewrite chunks_spec, length_fmap, length_seq. }
  split.
  - unfold Py.len. rewrite Hcount, Nat2Z.inj_div. f_equal. lia.
  - intros k i c (Hk & -> & ->)%chunks_lookup. unfold Py.len.
    rewrite length_take, length_drop, Hcount.
    pose proof (chunk_bound (length sequence) k).
    pose proof (chunk_bound (length sequence) (S k)).
    case_decide; lia.
Qed.

(** X11: the label of a chunk is the range of its terms.  The chunk of
    rank [k] starts after [20 * k] terms, has between 1 and 20 terms, and
    its line is labelled with the 1-based index of its first term and
    the 1-based index of its last term. *)
Theorem chunk_labels sequence (k : nat) i c :
  chunks sequence !! k = Some (i, c) →
  i = 20 * Z.of_nat k
  ∧ c = take 20 (drop (20 * k) sequence)
  ∧ 0 < Py.len c ≤ 20
  ∧ chunk_line sequence (i, c)
    = st_text ("Terms " +:+ Py.str_int (i + 1) +:+ "-"
               +:+ Py.str_int (i + Py.len c) +:+ ": " +:+ terms_str c).
Proof.
  intros (Hk & -> & ->)%chunks_lookup.
  assert (Hlen : Py.len (take 20 (drop (20 * k) sequence))
                 = Z.min 20 (Py.len sequence - 20 * Z.of_nat k)).
  { unfold Py.len. rewrite length_take, length_drop. lia. }
  split; [done|]. split; [done|]. split; [unfold Py.len in *; lia|].
  unfold chunk_line, chunk_size. cbn [fst snd]. rewrite Hlen.
  replace (20 * Z.of_nat k + Z.min 20 (Py.len sequence - 20 * Z.of_nat k))
    with (Z.min (20 * Z.of_nat k + 20) (Py.len sequence)) by lia.
  done.
Qed.

End PageFacts.

(** ** The page of a generated sequence *)

Lemma drop_seqZ m n (k : nat) :
  drop k (seqZ m n) = seqZ (m + Z.of_nat k) (n - Z.of_nat k).
Proof.
  apply list_eq. intros i. rewrite lookup_drop.
  destruct (decide (Z.of_nat (k + i) < n)) as [Hi|Hi].
  - rewrite !lookup_seqZ_lt by lia. f_equal. lia.
  - by rewrite !lookup_seqZ_ge by lia.
Qed.

Lemma take_seqZ m n (k : nat) :
  take k (seqZ m n) = seqZ m (Z.min (Z.of_nat k) n).
Proof.
  apply list_eq. intros i.
  destruct (decide (i < k)%nat) as [Hk|Hk].
  - rewrite lookup_take_lt by done.
    destruct (decide (Z.of_nat i < n)) as [Hi|Hi].
    + by rewrite !lookup_seqZ_lt by lia.
    + by rewrite !lookup_seqZ_ge by lia.
  - rewrite lookup_take_ge by lia. by rewrite lookup_seqZ_ge by lia.
Qed.

Section GeneratedPage.
Context {T : Type} `{PyArith T} `{PyFormat T}.
Implicit Types (first_term common_difference : T) (num_terms : Z).

(** X12: the export of a generated sequence has one line for each
    [k] from 1 to [num_terms], in order, and the value on line [k] is
    [first_term + (k - 1) * common_difference]: the term that the
    formula on the page gives for [n = k]. *)
Theorem export_of_generated first_term common_difference num_terms :
  sequence_text
    (generate_arithmetic_sequence first_term common_difference num_terms)
  = Py.join newline
      ((λ k, "Term " +:+ Py.str_int k +:+ ": "
             +:+ format_g (py_add first_term
                             (py_mul (py_of_int (k - 1)) common_difference)))
         <$> seqZ 1 num_terms).
Proof.
  rewrite sequence_text_lines, generate_fmap. f_equal.
  apply list_eq. intros i.
  rewrite list_lookup_imap, !list_lookup_fmap. unfold Py.range.
  destruct (decide (Z.of_nat i < num_terms)) as [Hi|Hi].
  - rewrite !lookup_seqZ_lt by done. simpl. unfold term.
    replace (1 + Z.of_nat i - 1) with (0 + Z.of_nat i) by lia.
    by replace (1 + Z.of_nat i) with (Z.of_nat i + 1) by lia.
  - by rewrite !lookup_seqZ_ge by lia.
Qed.

(** X13: the chunks of a generated sequence follow the formula.  The
    chunk of rank [k] holds the terms
    [first_term + i * common_difference] for [i] from [20 * k] up to
    20 indices further, or up to [num_terms - 1] if that comes first; so
    a line labelled [Terms a-b] lists the terms of the 1-based indices
    [a] to [b]. *)
Theorem chunks_of_generated first_term common_difference num_terms (k : nat) :
  20 * Z.of_nat k < num_terms →
  chunks (generate_arithmetic_sequence first_term common_difference num_terms)
    !! k
  = Some (20 * Z.of_nat k,
          (λ i, py_add first_term (py_mul (py_of_int i) common_difference))
            <$> seqZ (20 * Z.of_nat k)
                     (Z.min 20 (num_terms - 20 * Z.of_nat k))).
Proof.
  intros Hk. apply chunks_lookup. rewrite generate_length.
  split; [lia|]. split; [done|].
  rewrite generate_fmap, <- fmap_drop, <- fmap_take. unfold Py.range.
  rewrite drop_seqZ, take_seqZ. f_equal. f_equal; lia.
Qed.

(** X14: for more than 50 terms the two lines outside the expander list
    the terms of index 0 to 9 and the terms of index [num_terms - 10] to
    [num_terms - 1], which do not overlap. *)
Theorem first_and_last_ten first_term common_difference num_terms :
  50 < num_terms →
  written_lines
    (show_sequence
       (generate_arithmetic_sequence first_term common_difference num_terms))
  = [ "**First 10 terms:** "
        +:+ terms_str
              ((λ i, py_add first_term (py_mul (py_of_int i) common_difference))
                 <$> seqZ 0 10);
      "**Last 10 terms:** "
        +:+ terms_str
              ((λ i, py_add first_term (py_mul (py_of_int i) common_difference))
                 <$> seqZ (num_terms - 10) 10) ].
Proof.
  intros Hn. unfold show_sequence.
  rewrite generate_len by lia.
  destruct (Z.leb_spec num_terms 50); [lia|].
  destruct (Z.ltb_spec 20 num_terms); [|lia].
  rewrite slice_prefix by lia.
  change (-10) with (Z.opp 10). rewrite slice_suffix by (rewrite generate_len; lia).
  rewrite generate_length, generate_fmap, <- fmap_drop, <- fmap_take.
  unfold Py.range. rewrite drop_seqZ, take_seqZ.
  replace (Z.min (Z.of_nat (Z.to_nat 10)) num_terms) with 10 by lia.
  replace (0 + Z.of_nat (Z.to_nat num_terms - Z.to_nat 10))
    with (num_terms - 10) by lia.
  replace (num_terms - Z.of_nat (Z.to_nat num_terms - Z.to_nat 10))
    with 10 by lia.
  done.
Qed.

End GeneratedPage.

(** ** Floats with a zero common difference *)

Lemma small_ints_finite i :
  0 ≤ i < 1000 → is_finite (Py.float_of_int i) = true.
Proof.
  assert (Hall : forallb (λ i, is_finite (Py.float_of_int i)) (seqZ 0 1000) = true)
    by (vm_compute; reflexivity).
  intros Hi. rewrite forallb_forall in Hall. apply Hall.
  apply list_elem_of_In, elem_of_seqZ. lia.
Qed.

Lemma zero_cases d : is_zero d = true → ∃ s, Prim2SF d = S754_zero s.
Proof.
  unfold is_zero. rewrite FloatAxioms.eqb_spec.
  change (Prim2SF zero) with (S754_zero false).
  destruct (Prim2SF d) as [s|s| |s m e]; simpl; eauto; try done; by destruct s.
Qed.

Lemma mul_finite_zero x d :
  is_finite x = true → is_zero d = true → ∃ s, Prim2SF (x * d) = S754_zero s.
Proof.
  intros Hx Hd. rewrite mul_spec. destruct (zero_cases d Hd) as [sd ->].
  destruct (finite_cases x Hx) as [[s ->]|(s & m & e & ->)]; simpl; eauto.
Qed.

Lemma add_zero_eq x z s :
  is_finite x = true → Prim2SF z = S754_zero s →
  Py.float_eq (x + z) x = true ∧ (is_zero x = false → (x + z)%float = x).
Proof.
  intros Hx Hz. unfold Py.float_eq, is_zero.
  rewrite !FloatAxioms.eqb_spec, add_spec, Hz.
  change (Prim2SF zero) with (S754_zero false).
  destruct (finite_cases x Hx) as [[sx Hs]|(sx & m & e & Hs)]; rewrite Hs.
  - split; [by destruct sx, s | done].
  - simpl. split; [apply SFeqb_refl_finite|].
    intros _. apply Prim2SF_inj. by rewrite add_spec, Hz, Hs.
Qed.

(** X15: on floats, with a finite first term and a common difference
    that is a zero, every term of a valid request is equal to the first
    term as Python compares floats, and is the same float unless the
    first term is a zero. *)
Theorem float_constant_sequence (first_term common_difference : float)
    (num_terms i : Z) :
  is_finite first_term = true → is_zero common_difference = true →
  1 ≤ num_terms ≤ 1000 → 0 ≤ i < num_terms →
  ∃ t,
    Py.index
      (generate_arithmetic_sequence first_term common_difference num_terms) i
    = Some t
    ∧ Py.float_eq t first_term = true
    ∧ (is_zero first_term = false → t = first_term).
Proof.
  intros Hx Hd Hn Hi. exists (term first_term common_difference i).
  split; [by apply generate_index|].
  destruct (mul_finite_zero (Py.float_of_int i) common_difference) as [s Hs];
    [apply small_ints_finite; lia | done |].
  exact (add_zero_eq first_term _ s Hx Hs).
Qed.

(** ** File names *)

Lemma append_length (s1 s2 : string) :
  String.length (s1 +:+ s2) = (String.length s1 + String.length s2)%nat.
Proof. induction s1 as [|c s1 IH]; simpl; [done | by rewrite IH]. Qed.

Lemma append_inj_r (p s1 s2 : string) : p +:+ s1 = p +:+ s2 → s1 = s2.
Proof. induction p as [|c p IH]; simpl; [done | intros [= Heq]; auto]. Qed.

Lemma append_inj_l (s1 s2 q : string) : s1 +:+ q = s2 +:+ q → s1 = s2.
Proof.
  revert s2. induction s1 as [|c s1 IH]; intros [|c2 s2] Heq; simpl in *.
  - done.
  - apply (f_equal String.length) in Heq.
    rewrite !append_length in Heq. simpl in Heq. lia.
  - apply (f_equal String.length) in Heq. simpl in Heq.
    rewrite !append_length in Heq. simpl in Heq. lia.
  - injection Heq as -> Heq. f_equal. by apply IH.
Qed.

Lemma str_int_read i :
  DecimalString.NilZero.int_of_string (Py.str_int i) = Some (Z.to_int i).
Proof.
  unfold Py.str_int. apply DecimalString.NilZero.isi.
  - destruct i; simpl; [done | | done].
    intros [= Hp]. by apply DecimalPos.Unsigned.to_uint_nonnil in Hp.
  - destruct i; simpl; [done | done |].
    intros [= Hp]. by apply DecimalPos.Unsigned.to_uint_nonnil in Hp.
Qed.

Lemma str_int_inj i j : Py.str_int i = Py.str_int j → i = j.
Proof.
  intros Heq. apply (f_equal DecimalString.NilZero.int_of_string) in Heq.
  rewrite !str_int_read in Heq. injection Heq as Heq.
  apply (f_equal Z.of_int) in Heq. by rewrite !DecimalZ.of_to in Heq.
Qed.

Section FileNames.
Context {T : Type} `{PyFormat T}.

(** X16: the file name of the download tells the number of terms
    apart: for the same first term and common difference, two different
    numbers of terms give two different file names. *)
Theorem file_name_num_terms (first_term common_difference : T) (n m : Z) :
  n ≠ m →
  file_name first_term common_difference n
  ≠ file_name first_term common_difference m.
Proof.
  unfold file_name. intros Hne Heq. apply Hne.
  do 5 apply append_inj_r in Heq.
  by apply append_inj_l, str_int_inj in Heq.
Qed.

End FileNames.

(** ** The listing of a valid request *)

Lemma inline_lines_app p q :
  inline_lines (p ++ q) = inline_lines p ++ inline_lines q.
Proof. apply omap_app. Qed.

Lemma chunk_lines_app p q : chunk_lines (p ++ q) = chunk_lines p ++ chunk_lines q.
Proof. unfold chunk_lines. by rewrite omap_app, join_app. Qed.

Section Listing.
Context {T : Type} `{PyArith T} `{PyFormat T}.
Implicit Types (first_term common_difference : T) (num_terms : Z).
Implicit Types (sequence : list T).

Lemma listing_results first_term common_difference num_terms sequence :
  0 < Py.len sequence →
  inline_lines (results first_term common_difference num_terms sequence)
  = inline_lines (show_sequence sequence)
  ∧ chunk_lines (results first_term common_difference num_terms sequence)
    = chunk_lines (show_sequence sequence).
Proof.
  intros Hlen. destruct (last_term_nonempty sequence Hlen) as [t Ht].
  unfold results. rewrite Ht, !inline_lines_app, !chunk_lines_app.
  unfold download_option.
  split; case_match; cbn; by rewrite app_nil_r.
Qed.

Lemma chunk_texts sequence (cs : list (Z * list T)) :
  omap (λ c, match c with st_text body => Some body | _ => None end)
       (chunk_line sequence <$> cs)
  = (λ c, "Terms " +:+ Py.str_int (c.1 + 1) +:+ "-"
          +:+ Py.str_int (Z.min (c.1 + chunk_size) (Py.len sequence))
          +:+ ": " +:+ terms_str c.2) <$> cs.
Proof. induction cs as [|c cs IH]; [done|]. csimpl. by rewrite IH. Qed.

(** X17: what the page lists for a valid request.  With at most 50
    terms it has one inline line, the terms
    [first_term + i * common_difference] for [i] from 0 to
    [num_terms - 1] joined by commas, and no chunk.  With more terms it
    has no inline line and [ceil(num_terms / 20)] chunk lines, the line
    of rank [k] labelled [Terms 20k+1-min(20k+20, num_terms)] and listing
    the terms of the indices [20 * k] to [min(20k+20, num_terms) - 1]. *)
Theorem main_listing first_term common_difference num_terms :
  1 ≤ num_terms ≤ 1000 →
  let shown i :=
    format_g (py_add first_term (py_mul (py_of_int i) common_difference)) in
  if num_terms <=? 50 then
    inline_lines (page (main first_term common_difference num_terms))
    = [ Py.join ", " (shown <$> seqZ 0 num_terms) ]
    ∧ chunk_lines (page (main first_term common_difference num_terms)) = []
  else
    inline_lines (page (main first_term common_difference num_terms)) = []
    ∧ chunk_lines (page (main first_term common_difference num_terms))
      = (λ k : nat,
           "Terms " +:+ Py.str_int (20 * Z.of_nat k + 1) +:+ "-"
           +:+ Py.str_int (Z.min (20 * Z.of_nat k + 20) num_terms) +:+ ": "
           +:+ Py.join ", "
                 (shown <$> seqZ (20 * Z.of_nat k)
                                 (Z.min 20 (num_terms - 20 * Z.of_nat k))))
        <$> seq 0 (Z.to_nat ((num_terms + 19) `div` 20)).
Proof.
  intros Hn shown. rewrite main_valid by done. cbn [page].
  rewrite !inline_lines_app, !chunk_lines_app.
  destruct (listing_results first_term common_difference num_terms
              (generate_arithmetic_sequence first_term common_difference num_terms))
    as [-> ->]; [rewrite generate_len; lia|].
  unfold show_sequence. rewrite generate_len by lia.
  destruct (Z.leb_spec num_terms 50) as [Hle|Hgt].
  - split; [|done]. cbn. unfold terms_str.
    by rewrite generate_fmap, <- list_fmap_compose.
  - destruct (Z.ltb_spec 20 num_terms); [|lia]. split; [done|].
    cbn. rewrite !app_nil_r, chunk_texts, chunks_spec, <- list_fmap_compose.
    rewrite generate_length, generate_len by lia.
    replace ((Z.to_nat num_terms + 19) / 20)%nat
      with (Z.to_nat ((num_terms + 19) `div` 20)).
    2:{ apply Nat2Z.inj. rewrite Nat2Z.inj_div, Z2Nat.id by (apply Z.div_pos; lia).
        f_equal. lia. }
    apply list_fmap_ext. intros _ k _. unfold compose, chunk_size, terms_str.
    cbn [fst snd]. do 5 f_equal.
    rewrite generate_fmap, <- fmap_drop, <- fmap_take, <- list_fmap_compose.
    unfold Py.range. rewrite drop_seqZ, take_seqZ.
    replace (0 + Z.of_nat (20 * k)) with (20 * Z.of_nat k) by lia.
    replace (Z.of_nat 20) with 20 by lia.
    by replace (Z.of_nat (20 * k)) with (20 * Z.of_nat k) by lia.
Qed.

End Listing.

(** ** The further properties at concrete requests *)

Lemma generate_extends_witness :
  0 ≤ 2 ≤ 5
  ∧ take (Z.to_nat 2) (generate_arithmetic_sequence 5 (-2) 5)
    = generate_arithmetic_sequence 5 (-2) 2.
Proof.
  split; [lia|].
  destruct (generate_extends 5 (-2) 2 5) as [_ Htake]; [lia|]. exact Htake.
Defined.

Lemma loop_invariant_witness :
  rtc (loop_step 5 (-2)) (LoopState (Py.range 3) []) (LoopState [1; 2] [5])
  ∧ ∃ k, 0 ≤ k
         ∧ [5] = generate_arithmetic_sequence 5 (-2) k
         ∧ [1; 2] = seqZ k (3 - k).
Proof.
  assert (Hrun : rtc (loop_step 5 (-2))
                   (LoopState (Py.range 3) []) (LoopState [1; 2] [5])).
  { apply rtc_once. exact (loop_iter 5 (-2) 0 [1; 2] []). }
  split; [exact Hrun|].
  exact (loop_invariant 5 (-2) 3 (LoopState [1; 2] [5]) Hrun).
Defined.

Lemma loop_iterations_witness :
  nsteps (loop_step 5 (-2)) 3
    (LoopState (Py.range 3) []) (LoopState [] [5; 3; 1])
  ∧ 3%nat = Z.to_nat 3.
Proof.
  destruct (loop_iterations 5 (-2) 3) as [Hrun Honly].
  split; [exact Hrun|]. exact (Honly 3%nat [5; 3; 1] Hrun).
Defined.

Lemma int_terms_differ_witness :
  (0 ≤ 1 < 5 ∧ 0 ≤ 4 < 5)
  ∧ ∃ x y,
      Py.index (generate_arithmetic_sequence 5 (-2) 5) 1 = Some x
      ∧ Py.index (generate_arithmetic_sequence 5 (-2) 5) 4 = Some y
      ∧ y - x = (4 - 1) * -2.
Proof. split; [lia|]. apply (int_terms_differ 5 (-2) 5 1 4); lia. Defined.

Lemma int_terms_order_witness :
  (0 < 3 ∧ StronglySorted Z.lt (generate_arithmetic_sequence 1 3 4))
  ∧ (-2 < 0 ∧ StronglySorted Z.gt (generate_arithmetic_sequence 5 (-2) 5))
  ∧ (0 = 0 ∧ generate_arithmetic_sequence 7 0 3 = replicate (Z.to_nat 3) 7).
Proof.
  split; [|split].
  - split; [lia|]. apply (int_terms_order 1 3 4). lia.
  - split; [lia|]. apply (int_terms_order 5 (-2) 5). lia.
  - split; [lia|]. apply (int_terms_order 7 0 3). lia.
Defined.

Lemma int_sum_closed_form_witness :
  0 ≤ 10
  ∧ 2 * Py.sum (generate_arithmetic_sequence 1 1 10) = 10 * (2 * 1 + (10 - 1) * 1).
Proof. split; [lia|]. apply (int_sum_closed_form 1 1 10). lia. Defined.

Lemma main_metrics_witness :
  1 ≤ 5 ≤ 1000
  ∧ metrics (page (main 5%float (-2)%float 5))
    = [ ("First Term", "5.0"); ("Common Difference", "-2.0");
        ("Number of Terms", "5");
        ("Sum of all terms", "5"); ("Last term", "-3") ].
Proof.
  split; [lia|].
  rewrite (main_metrics 5%float (-2)%float 5) by lia. vm_compute. reflexivity.
Defined.

Lemma chunks_count_witness :
  chunks (generate_arithmetic_sequence 1 1 45) !! 2%nat
  = Some (40, [41; 42; 43; 44; 45])
  ∧ Py.len (chunks (generate_arithmetic_sequence 1 1 45)) = (45 + 19) `div` 20
  ∧ 40 + Py.len [41; 42; 43; 44; 45] = 45.
Proof.
  destruct (chunks_count (generate_arithmetic_sequence 1 1 45)) as [Hcount Hlast].
  split; [reflexivity|]. split; [exact Hcount|].
  pose proof (Hlast 2%nat 40 [41; 42; 43; 44; 45] eq_refl) as Hk.
  case_decide as Hrank; [exact Hk|]. exfalso. apply Hrank. reflexivity.
Defined.

Lemma chunk_labels_witness :
  chunks (generate_arithmetic_sequence 1 1 45)%float !! 2%nat
  = Some (40, [41; 42; 43; 44; 45]%float)
  ∧ chunk_line (generate_arithmetic_sequence 1 1 45)%float
      (40, [41; 42; 43; 44; 45]%float)
    = st_text "Terms 41-45: 41, 42, 43, 44, 45".
Proof.
  assert (Hk : chunks (generate_arithmetic_sequence 1 1 45)%float !! 2%nat
               = Some (40, [41; 42; 43; 44; 45]%float))
    by (vm_compute; reflexivity).
  split; [exact Hk|].
  destruct (chunk_labels _ _ _ _ Hk) as (_ & _ & _ & ->).
  vm_compute. reflexivity.
Defined.

Lemma chunks_of_generated_witness :
  20 * Z.of_nat 2 < 45
  ∧ chunks (generate_arithmetic_sequence 1 1 45) !! 2%nat
    = Some (40, [41; 42; 43; 44; 45]).
Proof.
  split; [lia|].
  rewrite (chunks_of_generated 1 1 45 2) by lia. vm_compute. reflexivity.
Defined.

Lemma first_and_last_ten_witness :
  50 < 60
  ∧ written_lines (show_sequence (generate_arithmetic_sequence 0.5 0.25 60)%float)
    = [ "**First 10 terms:** 0.5, 0.75, 1, 1.25, 1.5, 1.75, 2, 2.25, 2.5, 2.75";
        "**Last 10 terms:** 13, 13.25, 13.5, 13.75, 14, 14.25, 14.5, 14.75, 15, 15.25" ].
Proof.
  split; [lia|].
  rewrite (first_and_last_ten 0.5%float 0.25%float 60) by lia.
  vm_compute. reflexivity.
Defined.

Lemma float_constant_sequence_witness :
  (is_finite 2.5 = true ∧ is_zero 0 = true ∧ 1 ≤ 7 ≤ 1000 ∧ 0 ≤ 3 < 7)
  ∧ ∃ t,
      Py.index (generate_arithmetic_sequence 2.5 0 7)%float 3 = Some t
      ∧ Py.float_eq t 2.5 = true.
Proof.
  split; [repeat split; reflexivity || lia|].
  destruct (float_constant_sequence 2.5 0 7 3) as (t & Ht & Heq & _);
    [reflexivity | reflexivity | lia | lia |].
  exists t. split; [exact Ht | exact Heq].
Defined.

Lemma file_name_num_terms_witness :
  12 ≠ 13
  ∧ file_name 1%float 1%float 12 ≠ file_name 1%float 1%float 13.
Proof. split; [lia|]. apply (file_name_num_terms 1%float 1%float 12 13). lia. Defined.

Lemma main_listing_witness :
  (1 ≤ 3 ≤ 1000
   ∧ inline_lines (page (main 5%float (-2)%float 3)) = [ "5, 3, 1" ]
   ∧ chunk_lines (page (main 5%float (-2)%float 3)) = [])
  ∧ (1 ≤ 51 ≤ 1000
     ∧ inline_lines (page (main 1%float 1%float 51)) = []
     ∧ chunk_lines (page (main 1%float 1%float 51))
       = [ "Terms 1-20: 1, 2, 3, 4, 5, 6, 7, 8, 9, 10, 11, 12, 13, 14, 15, 16, 17, 18, 19, 20";
           "Terms 21-40: 21, 22, 23, 24, 25, 26, 27, 28, 29, 30, 31, 32, 33, 34, 35, 36, 37, 38, 39, 40";
           "Terms 41-51: 41, 42, 43, 44, 45, 46, 47, 48, 49, 50, 51" ]).
Proof.
  split.
  - split; [lia|].
    pose proof (main_listing 5%float (-2)%float 3) as Hl.
    cbv zeta in Hl. change (3 <=? 50) with true in Hl. cbv iota in Hl.
    destruct Hl as [-> ->]; [lia|]. split; vm_compute; reflexivity.
  - split; [lia|].
    pose proof (main_listing 1%float 1%float 51) as Hl.
    cbv zeta in Hl. change (51 <=? 50) with false in Hl. cbv iota in Hl.
    destruct Hl as [-> ->]; [lia|]. split; vm_compute; reflexivity.
Defined.
